(** * The GStreamer video decoder of spice-gtk (src/channel-display-gst.c)

    A shallow embedding of the decoder glue: the pipeline description built
    by [construct_pipeline], the completion signal ([pipeline_wait],
    [samples_count], [signal_pipeline]), the frame pump [stream_gst_data]
    and the construction and teardown of the pipeline handle.

    GStreamer and GLib are external.  Every call into them is recorded, in
    program order, in a trace of [call]s, and what they return is an input
    of the model ([gst_world] for construction, [pipeline_run] for one
    decode call).  The pipeline's own threads only ever enter this file
    through the two callbacks, which run [signal_pipeline] under the mutex;
    a [pipeline_run] says which callbacks run at which point of the call. *)

From Stdlib Require Import ZArith String List Bool Lia Permutation.
Import ListNotations.
Local Open Scope string_scope.
Local Open Scope list_scope.
Local Open Scope Z_scope.

(** ** Pointers and machine integers *)

Definition ptr := Z.
Definition NULL : ptr := 0.

Definition is_null (p : ptr) : bool := p =? NULL.

(** [uint32_t] arithmetic wraps around. *)
Definition u32 (z : Z) : Z := z mod 2 ^ 32.

Definition GST_FLOW_OK : Z := 0.

(** ** Data model *)

(** [st->codec] is compared against three constants of the protocol
    headers; every other value takes the [default:] branch. *)
Inductive SpiceVideoCodecType : Type :=
| SPICE_VIDEO_CODEC_TYPE_MJPEG
| SPICE_VIDEO_CODEC_TYPE_VP8
| SPICE_VIDEO_CODEC_TYPE_H264
| SPICE_VIDEO_CODEC_TYPE_other (n : Z).

(** The fields of [GstMapInfo] the decoder reads. *)
Record GstMapInfo : Type := mkGstMapInfo {
  memory : ptr;
  data : ptr;
  size : Z
}.

Definition mapinfo_zero : GstMapInfo := mkGstMapInfo NULL NULL 0.

(** [struct GStreamerDecoder].  The mutex and the condition variable have
    no content of their own here: their initialisation and clearing are
    calls in the trace. *)
Record GStreamerDecoder : Type := mkDecoder {
  pipeline : ptr;
  appsrc : ptr;
  appsink : ptr;
  pipeline_wait : Z;
  samples_count : Z;
  sample : ptr;
  mapinfo : GstMapInfo
}.

(** What [g_malloc0] hands out. *)
Definition decoder_zero : GStreamerDecoder :=
  mkDecoder NULL NULL NULL 0 0 NULL mapinfo_zero.

Definition set_pipeline (p : ptr) (d : GStreamerDecoder) :=
  mkDecoder p (appsrc d) (appsink d) (pipeline_wait d) (samples_count d)
            (sample d) (mapinfo d).
Definition set_appsrc (p : ptr) (d : GStreamerDecoder) :=
  mkDecoder (pipeline d) p (appsink d) (pipeline_wait d) (samples_count d)
            (sample d) (mapinfo d).
Definition set_appsink (p : ptr) (d : GStreamerDecoder) :=
  mkDecoder (pipeline d) (appsrc d) p (pipeline_wait d) (samples_count d)
            (sample d) (mapinfo d).
Definition set_pipeline_wait (w : Z) (d : GStreamerDecoder) :=
  mkDecoder (pipeline d) (appsrc d) (appsink d) w (samples_count d)
            (sample d) (mapinfo d).
Definition set_samples_count (n : Z) (d : GStreamerDecoder) :=
  mkDecoder (pipeline d) (appsrc d) (appsink d) (pipeline_wait d) n
            (sample d) (mapinfo d).
Definition set_sample (s : ptr) (d : GStreamerDecoder) :=
  mkDecoder (pipeline d) (appsrc d) (appsink d) (pipeline_wait d)
            (samples_count d) s (mapinfo d).
Definition set_mapinfo (mi : GstMapInfo) (d : GStreamerDecoder) :=
  mkDecoder (pipeline d) (appsrc d) (appsink d) (pipeline_wait d)
            (samples_count d) (sample d) mi.

(** The part of [display_stream] this file touches.  [gst_dec] is the
    pointer to the decoder, which the stream alone owns: [None] is the NULL
    pointer.  [frame_data] and [frame_size] are what
    [stream_get_current_frame] yields for the message in [msg_data]. *)
Record display_stream : Type := mkStream {
  codec : SpiceVideoCodecType;
  msg_data : ptr;
  frame_data : ptr;
  frame_size : Z;
  out_frame : ptr;
  gst_dec : option GStreamerDecoder
}.

Definition set_out_frame (p : ptr) (st : display_stream) :=
  mkStream (codec st) (msg_data st) (frame_data st) (frame_size st) p
           (gst_dec st).
Definition set_gst_dec (d : option GStreamerDecoder) (st : display_stream) :=
  mkStream (codec st) (msg_data st) (frame_data st) (frame_size st)
           (out_frame st) d.

(** ** Calls into GLib and GStreamer *)

Inductive GstState : Type := GST_STATE_NULL | GST_STATE_PLAYING.

Inductive call : Type :=
| gst_init
| g_malloc0
| g_free
| g_mutex_init
| g_cond_init
| g_mutex_clear
| g_cond_clear
| g_cond_wait
| gst_parse_launch_full (desc : string) (ret : ptr)
| gst_bin_get_by_name (bin : ptr) (name : string) (ret : ptr)
| gst_app_src_set_callbacks (src : ptr)
| gst_app_sink_set_callbacks (sink : ptr)
| gst_element_set_state (element : ptr) (state : GstState)
| gst_object_unref (object : ptr)
| spice_msg_in_ref (msg : ptr)
| gst_buffer_new_wrapped_full (bytes : ptr) (len : Z) (msg : ptr)
| gst_app_src_push_buffer (src : ptr) (ret : Z)
| gst_memory_unmap (mem : ptr)
| gst_memory_unref (mem : ptr)
| gst_sample_unref (smp : ptr)
| gst_app_sink_pull_sample (sink : ptr) (ret : ptr)
| gst_buffer_map (ret : option GstMapInfo).

(** ** Topology builder: the description string of [construct_pipeline] *)

(** The [switch (st->codec)]: the two strings, NULL ([None]) for an unknown
    codec. *)
Definition codec_src_caps (c : SpiceVideoCodecType) : option string :=
  match c with
  | SPICE_VIDEO_CODEC_TYPE_MJPEG => Some "caps=image/jpeg"
  | SPICE_VIDEO_CODEC_TYPE_VP8 => Some "caps=video/x-vp8"
  | SPICE_VIDEO_CODEC_TYPE_H264 => Some "caps=video/x-h264"
  | SPICE_VIDEO_CODEC_TYPE_other _ => None
  end.

Definition codec_gstdec_name (c : SpiceVideoCodecType) : option string :=
  match c with
  | SPICE_VIDEO_CODEC_TYPE_MJPEG => Some "jpegdec"
  | SPICE_VIDEO_CODEC_TYPE_VP8 => Some "vp8dec"
  | SPICE_VIDEO_CODEC_TYPE_H264 => Some "h264parse ! avdec_h264"
  | SPICE_VIDEO_CODEC_TYPE_other _ => None
  end.

(** [if (!src_caps || (gst_auto && strcmp(gst_auto, "decodebin")))]:
    [gst_auto] is what [getenv("SPICE_GST_AUTO")] returned. *)
Definition select_src_caps (c : SpiceVideoCodecType) (gst_auto : option string)
  : string :=
  match codec_src_caps c, gst_auto with
  | None, _ => "typefind=true"
  | Some caps, Some v => if String.eqb v "decodebin" then caps else "typefind=true"
  | Some caps, None => caps
  end.

(** [if (!gstdec_name || gst_auto)]. *)
Definition select_gstdec_name (c : SpiceVideoCodecType) (gst_auto : option string)
  : string :=
  match codec_gstdec_name c, gst_auto with
  | None, _ => "decodebin"
  | Some _, Some _ => "decodebin"
  | Some dec, None => dec
  end.

(** The [g_strdup_printf] of the description. *)
Definition pipeline_desc (c : SpiceVideoCodecType) (gst_auto : option string)
  : string :=
  ("appsrc name=src format=2 do-timestamp=1 " ++ select_src_caps c gst_auto
   ++ " ! " ++ select_gstdec_name c gst_auto
   ++ " ! videoconvert ! appsink name=sink caps=video/x-raw,format=BGRx")%string.

(** The two overrides, read off the produced description's fragments. *)
Definition caps_override_active (c : SpiceVideoCodecType) (gst_auto : option string)
  : bool :=
  String.eqb (select_src_caps c gst_auto) "typefind=true".

Definition decoder_override_active (c : SpiceVideoCodecType) (gst_auto : option string)
  : bool :=
  String.eqb (select_gstdec_name c gst_auto) "decodebin".

Definition known_codec (c : SpiceVideoCodecType) : bool :=
  match c with
  | SPICE_VIDEO_CODEC_TYPE_other _ => false
  | _ => true
  end.

(** ** Completion signal *)

(** [signal_pipeline], run with the mutex held: the flag is cleared and the
    count grows, as a [uint32_t]. *)
Definition signal_pipeline (decoder : GStreamerDecoder) (samples : Z)
  : GStreamerDecoder :=
  let decoder := set_pipeline_wait 0 decoder in
  set_samples_count (u32 (samples_count decoder + samples)) decoder.

Definition appsrc_need_data_cb (decoder : GStreamerDecoder) : GStreamerDecoder :=
  signal_pipeline decoder 0.

(** Its [GST_FLOW_OK] return value goes to the pipeline, not to this file. *)
Definition appsink_new_sample_cb (decoder : GStreamerDecoder) : GStreamerDecoder :=
  signal_pipeline decoder 1.

(** What a pipeline thread may do to the decoder: one of the two callbacks
    registered by [construct_pipeline]. *)
Inductive notification : Type := need_data | new_sample.

Definition deliver (decoder : GStreamerDecoder) (n : notification)
  : GStreamerDecoder :=
  match n with
  | need_data => appsrc_need_data_cb decoder
  | new_sample => appsink_new_sample_cb decoder
  end.

Definition deliver_all (ns : list notification) (decoder : GStreamerDecoder)
  : GStreamerDecoder :=
  fold_left deliver ns decoder.

(** A decoder as the C types allow it: the count is a [uint32_t]. *)
Definition wf_decoder (d : GStreamerDecoder) : Prop :=
  0 <= samples_count d < 2 ^ 32.

(** ** Construction and teardown of the pipeline handle *)

Inductive GstStateChangeReturn : Type :=
| GST_STATE_CHANGE_FAILURE
| GST_STATE_CHANGE_SUCCESS
| GST_STATE_CHANGE_ASYNC
| GST_STATE_CHANGE_NO_PREROLL.

Definition is_failure (r : GstStateChangeReturn) : bool :=
  match r with GST_STATE_CHANGE_FAILURE => true | _ => false end.

(** What the process environment and GStreamer answer during one
    construction. *)
Record gst_world : Type := mkWorld {
  getenv_SPICE_GST_AUTO : option string;
  parse_launch : string -> ptr;            (* NULL: the description is refused *)
  get_src : ptr;                           (* gst_bin_get_by_name(..., "src") *)
  get_sink : ptr;                          (* gst_bin_get_by_name(..., "sink") *)
  set_state_playing : GstStateChangeReturn
}.

Definition reset_pipeline (decoder : GStreamerDecoder) (t : list call)
  : GStreamerDecoder * list call :=
  if is_null (pipeline decoder) then (decoder, t)
  else
    let t := t ++ [gst_element_set_state (pipeline decoder) GST_STATE_NULL;
                   gst_object_unref (appsrc decoder);
                   gst_object_unref (appsink decoder);
                   gst_object_unref (pipeline decoder)] in
    let decoder := set_pipeline NULL decoder in
    (decoder, t ++ [g_mutex_clear; g_cond_clear]).

Definition construct_pipeline (w : gst_world) (st : display_stream)
    (decoder : GStreamerDecoder) (t : list call)
  : bool * GStreamerDecoder * list call :=
  let t := t ++ [g_mutex_init; g_cond_init] in
  let decoder := set_pipeline_wait 1 decoder in
  let decoder := set_samples_count 0 decoder in
  let desc := pipeline_desc (codec st) (getenv_SPICE_GST_AUTO w) in
  let decoder := set_pipeline (parse_launch w desc) decoder in
  let t := t ++ [gst_parse_launch_full desc (pipeline decoder)] in
  if is_null (pipeline decoder) then (false, decoder, t)
  else
    let decoder := set_appsrc (get_src w) decoder in
    let t := t ++ [gst_bin_get_by_name (pipeline decoder) "src" (appsrc decoder);
                   gst_app_src_set_callbacks (appsrc decoder)] in
    let decoder := set_appsink (get_sink w) decoder in
    let t := t ++ [gst_bin_get_by_name (pipeline decoder) "sink" (appsink decoder);
                   gst_app_sink_set_callbacks (appsink decoder)] in
    let t := t ++ [gst_element_set_state (pipeline decoder) GST_STATE_PLAYING] in
    if is_failure (set_state_playing w) then
      let (decoder, t) := reset_pipeline decoder t in
      (false, decoder, t)
    else (true, decoder, t).

(** Returns the new decoder, or [None] for NULL. *)
Definition gst_decoder_new (w : gst_world) (st : display_stream) (t : list call)
  : option GStreamerDecoder * list call :=
  let t := t ++ [gst_init] in
  let decoder := decoder_zero in
  let t := t ++ [g_malloc0] in
  let '(ok, decoder, t) := construct_pipeline w st decoder t in
  if negb ok then (None, t ++ [g_free])
  else (Some decoder, t).

Definition gst_decoder_destroy (decoder : GStreamerDecoder) (t : list call)
  : list call :=
  let (decoder, t) := reset_pipeline decoder t in
  t ++ [g_free].

(** ** Resources held across the GLib and GStreamer boundary *)

Inductive resource : Type :=
| res_alloc                (* the g_malloc0'ed decoder *)
| res_mutex                (* an initialised GMutex *)
| res_cond                 (* an initialised GCond *)
| res_object (p : ptr)     (* one reference on a GstObject *)
| res_sample (s : ptr)     (* one reference on a GstSample *)
| res_mapping (m : ptr)    (* a mapping of a GstMemory *)
| res_memory (m : ptr).    (* one reference on a GstMemory *)

Definition resource_eqb (a b : resource) : bool :=
  match a, b with
  | res_alloc, res_alloc => true
  | res_mutex, res_mutex => true
  | res_cond, res_cond => true
  | res_object p, res_object q => p =? q
  | res_sample p, res_sample q => p =? q
  | res_mapping p, res_mapping q => p =? q
  | res_memory p, res_memory q => p =? q
  | _, _ => false
  end.

Definition if_ptr (p : ptr) (r : list resource) : list resource :=
  if is_null p then [] else r.

(** What a call hands to the caller, and what it takes back. *)
Definition acquired (c : call) : list resource :=
  match c with
  | g_malloc0 => [res_alloc]
  | g_mutex_init => [res_mutex]
  | g_cond_init => [res_cond]
  | gst_parse_launch_full _ p => if_ptr p [res_object p]
  | gst_bin_get_by_name _ _ p => if_ptr p [res_object p]
  | gst_app_sink_pull_sample _ s => if_ptr s [res_sample s]
  | gst_buffer_map (Some mi) =>
      if_ptr (memory mi) [res_mapping (memory mi); res_memory (memory mi)]
  | _ => []
  end.

Definition released (c : call) : list resource :=
  match c with
  | g_free => [res_alloc]
  | g_mutex_clear => [res_mutex]
  | g_cond_clear => [res_cond]
  | gst_object_unref p => [res_object p]
  | gst_sample_unref s => [res_sample s]
  | gst_memory_unmap m => [res_mapping m]
  | gst_memory_unref m => [res_memory m]
  | _ => []
  end.

Fixpoint remove_one (r : resource) (held : list resource) : list resource :=
  match held with
  | [] => []
  | h :: held' => if resource_eqb r h then held' else h :: remove_one r held'
  end.

Definition account (held : list resource) (c : call) : list resource :=
  fold_left (fun h r => remove_one r h) (released c) held ++ acquired c.

(** The resources still held after a trace of calls. *)
Definition outstanding (t : list call) : list resource :=
  fold_left account t [].

(** ** The caller's thread: state, faults and blocking *)

Record machine : Type := mkMachine {
  stream : display_stream;
  trace : list call
}.

(** A call either returns, or dereferences a NULL pointer, or sleeps in
    [g_cond_wait] with nothing left to wake it.  The last two carry the
    machine as it was at that point. *)
Inductive result (A : Type) : Type :=
| Returns (a : A) (m : machine)
| Segfault (m : machine)
| Blocked (m : machine).
Arguments Returns {A} a m.
Arguments Segfault {A} m.
Arguments Blocked {A} m.

Definition M (A : Type) : Type := machine -> result A.

Definition ret {A} (a : A) : M A := fun m => Returns a m.

Definition bind {A B} (c : M A) (k : A -> M B) : M B :=
  fun m =>
    match c m with
    | Returns a m' => k a m'
    | Segfault m' => Segfault m'
    | Blocked m' => Blocked m'
    end.

Notation "x <- c ;; k" := (bind c (fun x => k))
  (at level 61, c at next level, right associativity).
Notation "c ;; k" := (bind c (fun _ => k))
  (at level 61, right associativity).

(** A read through [st->gst_dec]. *)
Definition deref_decoder : M GStreamerDecoder :=
  fun m =>
    match gst_dec (stream m) with
    | Some decoder => Returns decoder m
    | None => Segfault m
    end.

(** A write through [st->gst_dec]. *)
Definition update_decoder (f : GStreamerDecoder -> GStreamerDecoder) : M unit :=
  fun m =>
    match gst_dec (stream m) with
    | Some decoder =>
        Returns tt (mkMachine (set_gst_dec (Some (f decoder)) (stream m)) (trace m))
    | None => Segfault m
    end.

Definition get_stream : M display_stream := fun m => Returns (stream m) m.

Definition update_stream (f : display_stream -> display_stream) : M unit :=
  fun m => Returns tt (mkMachine (f (stream m)) (trace m)).

Definition emit (c : call) : M unit :=
  fun m => Returns tt (mkMachine (stream m) (trace m ++ [c])).

Definition block {A} : M A := fun m => Blocked m.

Definition when (b : bool) (c : M unit) : M unit := if b then c else ret tt.

(** The pipeline's threads run the given callbacks, one after the other,
    while the caller does not hold the mutex.  Without a decoder there is
    no pipeline and no callback. *)
Definition pipeline_threads (ns : list notification) : M unit :=
  fun m =>
    match gst_dec (stream m) with
    | Some decoder =>
        Returns tt (mkMachine (set_gst_dec (Some (deliver_all ns decoder)) (stream m))
                              (trace m))
    | None => Returns tt m
    end.

(** ** Frame pump *)

(** What the pipeline does during one call of [stream_gst_data]. *)
Record pipeline_run : Type := mkRun {
  push_ret : Z;                       (* gst_app_src_push_buffer *)
  pull_ret : ptr;                     (* gst_app_sink_pull_sample *)
  map_ret : option GstMapInfo;        (* gst_buffer_map: TRUE and the info, or FALSE *)
  before_arm : list notification;     (* callbacks that run before the flag is armed *)
  before_wait : list notification;    (* callbacks that run from then until the caller
                                         takes the mutex to wait, or returns *)
  wakes : list (list notification)    (* callbacks that run after that: one group per
                                         sleep in g_cond_wait, an empty group being a
                                         spurious wake-up; the groups the wait loop
                                         does not sleep through run once the caller
                                         has released the mutex, before it returns *)
}.

Definition set_memory (p : ptr) (mi : GstMapInfo) : GstMapInfo :=
  mkGstMapInfo p (data mi) (size mi).

Definition push_compressed_buffer (r : pipeline_run) : M bool :=
  st <- get_stream ;;
  let data := frame_data st in
  let size := frame_size st in
  if size =? 0 then ret false
  else
    emit (spice_msg_in_ref (msg_data st)) ;;
    emit (gst_buffer_new_wrapped_full data size (msg_data st)) ;;
    decoder <- deref_decoder ;;
    emit (gst_app_src_push_buffer (appsrc decoder) (push_ret r)) ;;
    if negb (push_ret r =? GST_FLOW_OK) then ret false
    else ret true.

Definition release_last_frame : M unit :=
  decoder <- deref_decoder ;;
  when (negb (is_null (memory (mapinfo decoder))))
    (emit (gst_memory_unmap (memory (mapinfo decoder))) ;;
     emit (gst_memory_unref (memory (mapinfo decoder))) ;;
     update_decoder (fun d => set_mapinfo (set_memory NULL (mapinfo d)) d)) ;;
  when (negb (is_null (sample decoder)))
    (emit (gst_sample_unref (sample decoder)) ;;
     update_decoder (set_sample NULL)) ;;
  update_stream (set_out_frame NULL).

(** A refused [gst_buffer_map] leaves the info zeroed. *)
Definition pull_raw_frame (r : pipeline_run) : M unit :=
  decoder <- deref_decoder ;;
  emit (gst_app_sink_pull_sample (appsink decoder) (pull_ret r)) ;;
  update_decoder (set_sample (pull_ret r)) ;;
  if is_null (pull_ret r) then ret tt
  else
    emit (gst_buffer_map (map_ret r)) ;;
    match map_ret r with
    | Some mi =>
        update_decoder (set_mapinfo mi) ;;
        update_stream (set_out_frame (data mi))
    | None => update_decoder (set_mapinfo mapinfo_zero)
    end.

(** [while (decoder->pipeline_wait) g_cond_wait(...)], entered with the
    mutex held.  Each [g_cond_wait] gives the mutex up for the next group of
    callbacks; the groups not slept through are returned. *)
Fixpoint wait_loop (ws : list (list notification))
  : M (list (list notification)) :=
  decoder <- deref_decoder ;;
  if negb (pipeline_wait decoder =? 0) then
    emit g_cond_wait ;;
    match ws with
    | [] => block
    | ns :: ws' => pipeline_threads ns ;; wait_loop ws'
    end
  else ret ws.

(** The two locked sections (the arming, and the part from the wait loop
    to the decrement) are atomic for the callbacks, which take the same
    mutex; [pipeline_threads] marks the three points where the callbacks of
    the run come in between: before the arming, between the arming and the
    wait, and after the mutex is released for the last time. *)
Definition stream_gst_data (r : pipeline_run) : M unit :=
  release_last_frame ;;
  pipeline_threads (before_arm r) ;;
  update_decoder (set_pipeline_wait 1) ;;
  pushed <- push_compressed_buffer r ;;
  pipeline_threads (before_wait r) ;;
  if pushed then
    rest <- wait_loop (wakes r) ;;
    update_decoder (set_pipeline_wait 1) ;;
    decoder <- deref_decoder ;;
    let samples := samples_count decoder in
    when (negb (samples =? 0))
      (update_decoder (fun d => set_samples_count (u32 (samples_count d - 1)) d)) ;;
    pipeline_threads (List.concat rest) ;;
    when (negb (samples =? 0)) (pull_raw_frame r)
  else ret tt.

Definition stream_gst_init (w : gst_world) : M unit :=
  fun m =>
    let (dec, t) := gst_decoder_new w (stream m) (trace m) in
    Returns tt (mkMachine (set_gst_dec dec (stream m)) t).

Definition stream_gst_cleanup : M unit :=
  release_last_frame ;;
  st <- get_stream ;;
  match gst_dec st with
  | Some decoder =>
      (fun m => Returns tt (mkMachine (stream m) (gst_decoder_destroy decoder (trace m)))) ;;
      update_stream (set_gst_dec None)
  | None => ret tt
  end.

(** [decode] reports NoOutput by leaving [st->out_frame] NULL. *)
Definition NoOutput (st : display_stream) : Prop := out_frame st = NULL.

(** A sequence of decode calls, one after the other on the caller's thread. *)
Fixpoint decode_all (rs : list pipeline_run) : M unit :=
  match rs with
  | [] => ret tt
  | r :: rs' => stream_gst_data r ;; decode_all rs'
  end.

(** ** Vocabulary of the statements

    Closed forms of what the steps of a decode call do to a stream that has
    a decoder; the lemmas of the next part relate them to the code. *)

Definition samples_of (n : notification) : Z :=
  match n with need_data => 0 | new_sample => 1 end.

(** How many output samples a run of callbacks announces. *)
Fixpoint outputs (ns : list notification) : Z :=
  match ns with
  | [] => 0
  | n :: ns' => samples_of n + outputs ns'
  end.

(** The machine of a stream with a decoder, spelled out. *)
Definition machine_of (st : display_stream) (o : ptr) (d : GStreamerDecoder)
    (t : list call) : machine :=
  mkMachine (mkStream (codec st) (msg_data st) (frame_data st) (frame_size st)
                      o (Some d)) t.

(** The decoder once the lease is released, and the calls that release it. *)
Definition released_decoder (d : GStreamerDecoder) : GStreamerDecoder :=
  mkDecoder (pipeline d) (appsrc d) (appsink d) (pipeline_wait d)
            (samples_count d) NULL
            (mkGstMapInfo NULL (data (mapinfo d)) (size (mapinfo d))).

Definition release_calls (d : GStreamerDecoder) : list call :=
  (if is_null (memory (mapinfo d)) then []
   else [gst_memory_unmap (memory (mapinfo d));
         gst_memory_unref (memory (mapinfo d))])
  ++ (if is_null (sample d) then [] else [gst_sample_unref (sample d)]).

Definition push_calls (st : display_stream) (d : GStreamerDecoder)
    (r : pipeline_run) : list call :=
  if frame_size st =? 0 then []
  else [spice_msg_in_ref (msg_data st);
        gst_buffer_new_wrapped_full (frame_data st) (frame_size st) (msg_data st);
        gst_app_src_push_buffer (appsrc d) (push_ret r)].

(** Whether the buffer gets injected. *)
Definition injected (st : display_stream) (r : pipeline_run) : bool :=
  negb (frame_size st =? 0) && (push_ret r =? GST_FLOW_OK).

Definition pulled_decoder (r : pipeline_run) (d : GStreamerDecoder)
  : GStreamerDecoder :=
  if is_null (pull_ret r) then set_sample (pull_ret r) d
  else match map_ret r with
       | Some mi => set_mapinfo mi (set_sample (pull_ret r) d)
       | None => set_mapinfo mapinfo_zero (set_sample (pull_ret r) d)
       end.

Definition pulled_frame (r : pipeline_run) (o : ptr) : ptr :=
  if is_null (pull_ret r) then o
  else match map_ret r with Some mi => data mi | None => o end.

Definition pull_calls (r : pipeline_run) (d : GStreamerDecoder) : list call :=
  gst_app_sink_pull_sample (appsink d) (pull_ret r)
  :: (if is_null (pull_ret r) then [] else [gst_buffer_map (map_ret r)]).

(** The decoder when the caller is about to wait (or to return, when
    nothing was injected). *)
Definition armed_decoder (r : pipeline_run) (d : GStreamerDecoder)
  : GStreamerDecoder :=
  deliver_all (before_wait r)
    (set_pipeline_wait 1 (deliver_all (before_arm r) (released_decoder d))).

(** The locked section after the wait loop. *)
Definition consumed_decoder (d : GStreamerDecoder) : GStreamerDecoder :=
  let d' := set_pipeline_wait 1 d in
  if samples_count d =? 0 then d'
  else set_samples_count (u32 (samples_count d - 1)) d'.

(** How many samples a trace pulls from the sink. *)
Fixpoint pulls (t : list call) : Z :=
  match t with
  | [] => 0
  | gst_app_sink_pull_sample _ _ :: t' => 1 + pulls t'
  | _ :: t' => pulls t'
  end.

(** Every callback of the run is [appsrc_need_data_cb]. *)
Definition only_need_data (ns : list notification) : Prop :=
  Forall (fun n => n = need_data) ns.

(** The callbacks of a run that come once the flag is armed. *)
Definition after_arming (r : pipeline_run) : list notification :=
  before_wait r ++ concat (wakes r).

(** ** The output frame lease, read off the trace *)






(** ** Sample inputs *)

(** A motion-JPEG stream with a 10-byte frame and no decoder yet. *)
Definition sample_stream : display_stream :=
  mkStream SPICE_VIDEO_CODEC_TYPE_MJPEG 100 200 10 NULL None.

Definition sample_machine : machine := mkMachine sample_stream [].

(** GStreamer accepting every description and every state change. *)
Definition sample_world : gst_world :=
  mkWorld None (fun _ => 1000) 1001 1002 GST_STATE_CHANGE_SUCCESS.

(** GStreamer refusing every description. *)
Definition refusing_world : gst_world :=
  mkWorld None (fun _ => NULL) 1001 1002 GST_STATE_CHANGE_SUCCESS.

(** GStreamer failing to start the pipeline. *)
Definition stalling_world : gst_world :=
  mkWorld None (fun _ => 1000) 1001 1002 GST_STATE_CHANGE_FAILURE.

(** The decoder and the machine that stream_gst_init leaves in
    [sample_world]. *)
Definition sample_decoder : GStreamerDecoder :=
  mkDecoder 1000 1001 1002 1 0 NULL mapinfo_zero.

Definition started_machine : machine :=
  mkMachine (set_gst_dec (Some sample_decoder) sample_stream)
    [gst_init; g_malloc0; g_mutex_init; g_cond_init;
     gst_parse_launch_full (pipeline_desc SPICE_VIDEO_CODEC_TYPE_MJPEG None) 1000;
     gst_bin_get_by_name 1000 "src" 1001; gst_app_src_set_callbacks 1001;
     gst_bin_get_by_name 1000 "sink" 1002; gst_app_sink_set_callbacks 1002;
     gst_element_set_state 1000 GST_STATE_PLAYING].

Definition sample_mapinfo : GstMapInfo := mkGstMapInfo 3000 3001 64.

(** A pipeline that accepts the buffer, has a sample to pull and map, and
    runs the given callbacks. *)
Definition sample_run (bw : list notification) (ws : list (list notification))
  : pipeline_run :=
  mkRun GST_FLOW_OK 2000 (Some sample_mapinfo) [] bw ws.

(** ** Vocabulary of the further properties *)

(** The decoder once the flag is armed, before any later callback. *)
Definition armed_only (r : pipeline_run) (d : GStreamerDecoder) : GStreamerDecoder :=
  set_pipeline_wait 1 (deliver_all (before_arm r) (released_decoder d)).

(** The callbacks of a run that get to run during the call: those after the
    arming and before the wait always do; those of [wakes] only when the
    caller waits, or has waited, for them. *)
Definition delivered (st : display_stream) (r : pipeline_run) : list notification :=
  before_arm r ++ (if injected st r then after_arming r else before_wait r).

Fixpoint delivered_all (st : display_stream) (rs : list pipeline_run)
  : list notification :=
  match rs with
  | [] => []
  | r :: rs' => delivered st r ++ delivered_all st rs'
  end.

(** The resources of the lease a decoder records. *)
Definition lease_resources (d : GStreamerDecoder) : list resource :=
  if_ptr (sample d) [res_sample (sample d)]
  ++ if_ptr (memory (mapinfo d))
       [res_mapping (memory (mapinfo d)); res_memory (memory (mapinfo d))].

(** The resources of a constructed decoder, in the order of their
    acquisition. *)
Definition handle_resources (d : GStreamerDecoder) : list resource :=
  [res_alloc; res_mutex; res_cond; res_object (pipeline d)]
  ++ if_ptr (appsrc d) [res_object (appsrc d)]
  ++ if_ptr (appsink d) [res_object (appsink d)].

Definition is_lease_resource (x : resource) : bool :=
  match x with
  | res_sample _ | res_mapping _ | res_memory _ => true
  | _ => false
  end.

(** The calls of [gst_decoder_destroy] on a decoder that has a pipeline. *)
Definition teardown_calls (d : GStreamerDecoder) : list call :=
  [gst_element_set_state (pipeline d) GST_STATE_NULL;
   gst_object_unref (appsrc d);
   gst_object_unref (appsink d);
   gst_object_unref (pipeline d);
   g_mutex_clear; g_cond_clear; g_free].

(** The calls of a successful [gst_decoder_new]. *)
Definition construction_calls (st : display_stream) (w : gst_world) : list call :=
  let desc := pipeline_desc (codec st) (getenv_SPICE_GST_AUTO w) in
  let p := parse_launch w desc in
  [gst_init; g_malloc0; g_mutex_init; g_cond_init;
   gst_parse_launch_full desc p;
   gst_bin_get_by_name p "src" (get_src w); gst_app_src_set_callbacks (get_src w);
   gst_bin_get_by_name p "sink" (get_sink w); gst_app_sink_set_callbacks (get_sink w);
   gst_element_set_state p GST_STATE_PLAYING].

(** The decoder a successful [gst_decoder_new] returns. *)
Definition constructed_decoder (st : display_stream) (w : gst_world)
  : GStreamerDecoder :=
  mkDecoder (parse_launch w (pipeline_desc (codec st) (getenv_SPICE_GST_AUTO w)))
            (get_src w) (get_sink w) 1 0 NULL mapinfo_zero.

(** How many calls of a trace satisfy a test. *)
Definition count_calls (p : call -> bool) (t : list call) : Z :=
  Z.of_nat (length (filter p t)).

Definition is_msg_ref (c : call) : bool :=
  match c with spice_msg_in_ref _ => true | _ => false end.

Definition is_buffer_wrap (c : call) : bool :=
  match c with gst_buffer_new_wrapped_full _ _ _ => true | _ => false end.

Definition is_push (c : call) : bool :=
  match c with gst_app_src_push_buffer _ _ => true | _ => false end.

(** The calls by which a decoder is torn down. *)
Definition is_teardown (c : call) : bool :=
  match c with
  | gst_element_set_state _ _ | gst_object_unref _
  | g_mutex_clear | g_cond_clear | g_free => true
  | _ => false
  end.

(** A list of resources with no part of a lease in it. *)
Definition lease_free (held : list resource) : Prop :=
  forallb (fun x => negb (is_lease_resource x)) held = true.

(** The stream's codec and current frame are the same. *)
Definition same_frame (st st' : display_stream) : Prop :=
  codec st' = codec st /\ msg_data st' = msg_data st /\
  frame_data st' = frame_data st /\ frame_size st' = frame_size st.

(** The decoder's pipeline and endpoints are the same. *)
Definition same_handles (d d' : GStreamerDecoder) : Prop :=
  pipeline d' = pipeline d /\ appsrc d' = appsrc d /\ appsink d' = appsink d.

(** What holds of the machine [m'] and decoder [d'] a decode call leaves,
    whether it returned or is still waiting, from [m] and [d]. *)
Definition decode_step (r : pipeline_run) (m : machine) (d : GStreamerDecoder)
    (m' : machine) (d' : GStreamerDecoder) : Prop :=
  gst_dec (stream m') = Some d' /\
  same_frame (stream m) (stream m') /\
  same_handles d d' /\
  wf_decoder d' /\
  (forall H, lease_free H ->
             outstanding (trace m) = H ++ lease_resources d ->
             outstanding (trace m') = H ++ lease_resources d') /\
  (samples_count d + outputs (delivered (stream m) r) < 2 ^ 32 ->
   samples_count d' + pulls (trace m') =
   samples_count d + pulls (trace m) + outputs (delivered (stream m) r)) /\
  pulls (trace m) <= pulls (trace m') <= pulls (trace m) + 1 /\
  (let n := if frame_size (stream m) =? 0 then 0 else 1 in
   count_calls is_msg_ref (trace m') = count_calls is_msg_ref (trace m) + n /\
   count_calls is_buffer_wrap (trace m') = count_calls is_buffer_wrap (trace m) + n /\
   count_calls is_push (trace m') = count_calls is_push (trace m) + n /\
   count_calls is_teardown (trace m') = count_calls is_teardown (trace m)).

(** The same for the calls [done] of a sequence: all of them when the
    sequence returned, those up to the one still waiting otherwise. *)
Definition decode_steps (done : list pipeline_run) (m : machine)
    (d : GStreamerDecoder) (m' : machine) (d' : GStreamerDecoder) : Prop :=
  gst_dec (stream m') = Some d' /\
  same_frame (stream m) (stream m') /\
  same_handles d d' /\
  wf_decoder d' /\
  (forall H, lease_free H ->
             outstanding (trace m) = H ++ lease_resources d ->
             outstanding (trace m') = H ++ lease_resources d') /\
  (samples_count d + outputs (delivered_all (stream m) done) < 2 ^ 32 ->
   samples_count d' + pulls (trace m') =
   samples_count d + pulls (trace m) + outputs (delivered_all (stream m) done)) /\
  pulls (trace m) <= pulls (trace m') <= pulls (trace m) + Z.of_nat (length done) /\
  (let n := if frame_size (stream m) =? 0 then 0 else Z.of_nat (length done) in
   count_calls is_msg_ref (trace m') = count_calls is_msg_ref (trace m) + n /\
   count_calls is_buffer_wrap (trace m') = count_calls is_buffer_wrap (trace m) + n /\
   count_calls is_push (trace m') = count_calls is_push (trace m) + n /\
   count_calls is_teardown (trace m') = count_calls is_teardown (trace m)).

(** The callbacks of the sleep that ends a wait: those of the first group
    that is not a spurious wake-up. *)
Fixpoint first_wake (ws : list (list notification)) : list notification :=
  match ws with
  | [] => []
  | [] :: ws' => first_wake ws'
  | ns :: _ => ns
  end.

(** The callbacks that run between the arming of the flag and the caller's
    read of the count: those that come before the caller takes the mutex to
    wait, if any (it then does not sleep), and otherwise those of the sleep
    that ends its wait. *)
Definition seen_before_read (r : pipeline_run) : list notification :=
  match before_wait r with
  | [] => first_wake (wakes r)
  | _ :: _ => before_wait r
  end.

Definition notification_eq_dec (a b : notification) : {a = b} + {a <> b}.
Proof. decide equality. Defined.

(** * Properties *)

(** ** The completion signal under any number of callbacks *)

Lemma u32_range z : 0 <= u32 z < 2 ^ 32.
Proof. unfold u32. apply Z.mod_pos_bound. lia. Qed.

Lemma u32_small z : 0 <= z < 2 ^ 32 -> u32 z = z.
Proof. intros H. unfold u32. apply Z.mod_small. exact H. Qed.

Lemma u32_add_l a b : u32 (u32 a + b) = u32 (a + b).
Proof. unfold u32. apply Zplus_mod_idemp_l. Qed.

Lemma outputs_nonneg ns : 0 <= outputs ns.
Proof. induction ns as [|[] ns IH]; cbn [outputs samples_of]; lia. Qed.

Lemma outputs_app a b : outputs (a ++ b) = outputs a + outputs b.
Proof. induction a as [|n a IH]; cbn [outputs app]; lia. Qed.

Lemma deliver_eq d n :
  deliver d n =
  mkDecoder (pipeline d) (appsrc d) (appsink d) 0
            (u32 (samples_count d + samples_of n)) (sample d) (mapinfo d).
Proof. destruct n; reflexivity. Qed.

Lemma deliver_all_app a b d :
  deliver_all (a ++ b) d = deliver_all b (deliver_all a d).
Proof. unfold deliver_all. apply fold_left_app. Qed.

Lemma deliver_all_cons_eq ns : forall n d,
  deliver_all (n :: ns) d =
  mkDecoder (pipeline d) (appsrc d) (appsink d) 0
            (u32 (samples_count d + outputs (n :: ns))) (sample d) (mapinfo d).
Proof.
  induction ns as [|n' ns IH]; intros n d.
  - cbn [deliver_all fold_left outputs]. rewrite deliver_eq. do 2 f_equal. lia.
  - change (deliver_all (n :: n' :: ns) d)
      with (deliver_all (n' :: ns) (deliver d n)).
    rewrite IH, deliver_eq. cbn [pipeline appsrc appsink samples_count sample mapinfo].
    f_equal. rewrite u32_add_l. f_equal. cbn [outputs]. lia.
Qed.

Lemma deliver_all_wait ns d :
  pipeline_wait (deliver_all ns d) =
  match ns with [] => pipeline_wait d | _ => 0 end.
Proof. destruct ns; [reflexivity|]. rewrite deliver_all_cons_eq. reflexivity. Qed.

Lemma deliver_all_count ns d :
  wf_decoder d ->
  samples_count (deliver_all ns d) = u32 (samples_count d + outputs ns).
Proof.
  intros H. destruct ns.
  - cbn [deliver_all fold_left outputs]. rewrite Z.add_0_r, u32_small; [reflexivity | exact H].
  - rewrite deliver_all_cons_eq. reflexivity.
Qed.

Lemma deliver_all_wf ns d : wf_decoder d -> wf_decoder (deliver_all ns d).
Proof.
  intros H. unfold wf_decoder. rewrite deliver_all_count by exact H.
  apply u32_range.
Qed.

Lemma deliver_all_sample ns d : sample (deliver_all ns d) = sample d.
Proof. destruct ns; [reflexivity|]. rewrite deliver_all_cons_eq. reflexivity. Qed.

Lemma deliver_all_mapinfo ns d : mapinfo (deliver_all ns d) = mapinfo d.
Proof. destruct ns; [reflexivity|]. rewrite deliver_all_cons_eq. reflexivity. Qed.

Lemma deliver_all_appsink ns d : appsink (deliver_all ns d) = appsink d.
Proof. destruct ns; [reflexivity|]. rewrite deliver_all_cons_eq. reflexivity. Qed.

Lemma deliver_all_appsrc ns d : appsrc (deliver_all ns d) = appsrc d.
Proof. destruct ns; [reflexivity|]. rewrite deliver_all_cons_eq. reflexivity. Qed.

(** ** The wait loop *)

(** Either the loop sleeps through the groups [slept], the last of which
    brought a callback, and returns the others; or no callback ever comes
    and the caller stays in [g_cond_wait]. *)
Lemma wait_loop_spec ws : forall st o d t,
  (exists slept rest,
      ws = slept ++ rest /\
      wait_loop ws (machine_of st o d t) =
        Returns rest (machine_of st o (deliver_all (List.concat slept) d)
                                 (t ++ repeat g_cond_wait (length slept))) /\
      pipeline_wait (deliver_all (List.concat slept) d) = 0 /\
      (pipeline_wait d = 0 -> slept = []) /\
      (pipeline_wait d <> 0 -> List.concat slept <> []))
  \/ (pipeline_wait d <> 0 /\ List.concat ws = [] /\
      wait_loop ws (machine_of st o d t) =
        Blocked (machine_of st o d (t ++ repeat g_cond_wait (S (length ws))))).
Proof.
  induction ws as [|ns ws IH]; intros st o d t.
  - cbn [wait_loop]. unfold bind, deref_decoder, machine_of. cbn.
    destruct (pipeline_wait d =? 0) eqn:E; cbn.
    + left. exists [], []. cbn. rewrite app_nil_r.
      apply Z.eqb_eq in E. repeat split; auto; congruence.
    + right. apply Z.eqb_neq in E. repeat split; auto.
  - cbn [wait_loop]. unfold bind at 1. unfold deref_decoder, machine_of. cbn.
    destruct (pipeline_wait d =? 0) eqn:E; cbn.
    + left. exists [], (ns :: ws). cbn. rewrite app_nil_r.
      apply Z.eqb_eq in E. repeat split; auto; congruence.
    + apply Z.eqb_neq in E.
      specialize (IH st o (deliver_all ns d) (t ++ [g_cond_wait])).
      unfold machine_of in IH. cbn in IH.
      destruct IH as [(slept & rest & Hws & Hrun & Hw & _ & Hne) | (Hw & Hc & Hrun)].
      * left. exists (ns :: slept), rest. cbn [List.concat length app].
        rewrite deliver_all_app. split; [now rewrite Hws|].
        split.
        { unfold bind, emit, pipeline_threads, set_gst_dec. cbn. rewrite Hrun.
          rewrite <- app_assoc. reflexivity. }
        split; [exact Hw|]. split; [intros; contradiction|].
        intros _ Hnil. apply app_eq_nil in Hnil as [Hns Hsl].
        subst ns. apply Hne; [exact E | exact Hsl].
      * right. rewrite deliver_all_wait in Hw.
        destruct ns as [|n ns]; [|contradiction].
        split; [exact E|]. split; [exact Hc|].
        unfold bind, emit, pipeline_threads, set_gst_dec. cbn. cbn in Hrun. rewrite Hrun.
        rewrite <- app_assoc. reflexivity.
Qed.

(** ** The steps of a decode call on a stream that has a decoder *)

Lemma bind_returns {A B} (c : M A) (k : A -> M B) m a m' :
  c m = Returns a m' -> bind c k m = k a m'.
Proof. intros H. unfold bind. now rewrite H. Qed.

Lemma release_last_frame_spec st o d t :
  release_last_frame (machine_of st o d t) =
  Returns tt (machine_of st NULL (released_decoder d) (t ++ release_calls d)).
Proof.
  unfold release_last_frame, release_calls, released_decoder, machine_of.
  destruct d as [p src snk w n s [mem dat sz]].
  unfold bind, deref_decoder, when, emit, update_decoder, update_stream, ret,
    set_gst_dec, set_out_frame, set_mapinfo, set_memory, set_sample, is_null.
  cbn.
  destruct (mem =? NULL) eqn:Em; destruct (s =? NULL) eqn:Es; cbn;
    try apply Z.eqb_eq in Em; try apply Z.eqb_eq in Es; subst;
    rewrite <- ?app_assoc; cbn; rewrite ?app_nil_r; reflexivity.
Qed.

Lemma push_compressed_buffer_spec r st o d t :
  push_compressed_buffer r (machine_of st o d t) =
  Returns (injected st r) (machine_of st o d (t ++ push_calls st d r)).
Proof.
  unfold push_compressed_buffer, push_calls, injected, machine_of.
  unfold bind, get_stream, deref_decoder, emit, ret. cbn.
  destruct (frame_size st =? 0); cbn.
  - now rewrite app_nil_r.
  - destruct (push_ret r =? GST_FLOW_OK); cbn; rewrite <- !app_assoc; reflexivity.
Qed.

Lemma pull_raw_frame_spec r st o d t :
  pull_raw_frame r (machine_of st o d t) =
  Returns tt (machine_of st (pulled_frame r o) (pulled_decoder r d)
                         (t ++ pull_calls r d)).
Proof.
  unfold pull_raw_frame, pulled_decoder, pulled_frame, pull_calls, machine_of.
  unfold bind, deref_decoder, emit, update_decoder, update_stream, ret,
    set_gst_dec, set_out_frame. cbn.
  destruct (is_null (pull_ret r)); cbn; [reflexivity|].
  destruct (map_ret r); cbn; rewrite <- !app_assoc; reflexivity.
Qed.

Lemma pipeline_threads_spec ns st o d t :
  pipeline_threads ns (machine_of st o d t) =
  Returns tt (machine_of st o (deliver_all ns d) t).
Proof. reflexivity. Qed.

Lemma update_decoder_spec f st o d t :
  update_decoder f (machine_of st o d t) = Returns tt (machine_of st o (f d) t).
Proof. reflexivity. Qed.

Lemma deref_decoder_spec st o d t :
  deref_decoder (machine_of st o d t) = Returns d (machine_of st o d t).
Proof. reflexivity. Qed.

Ltac step_with L := erewrite bind_returns; [| apply L].

(** Spell out a machine whose stream has the decoder named by [Hd]. *)
Ltac expose_machine m Hd :=
  let c := fresh "c" in let ms := fresh "ms" in let fd := fresh "fd" in
  let fs := fresh "fs" in let o := fresh "o" in let gd := fresh "gd" in
  let t := fresh "t" in
  destruct m as [[c ms fd fs o gd] t];
  cbn [stream trace gst_dec] in Hd; subst gd;
  cbn [stream trace frame_size out_frame gst_dec] in *;
  match goal with
  | |- context [mkMachine (mkStream c ms fd fs o (Some ?d)) t] =>
      change (mkMachine (mkStream c ms fd fs o (Some d)) t)
        with (machine_of (mkStream c ms fd fs o (Some d)) o d t)
  end.

(** Up to the injection, every call runs the same steps. *)
Lemma stream_gst_data_prologue r st o d t :
  stream_gst_data r (machine_of st o d t) =
  (if injected st r then
     rest <- wait_loop (wakes r) ;;
     update_decoder (set_pipeline_wait 1) ;;
     decoder <- deref_decoder ;;
     let samples := samples_count decoder in
     when (negb (samples =? 0))
       (update_decoder (fun d => set_samples_count (u32 (samples_count d - 1)) d)) ;;
     pipeline_threads (concat rest) ;;
     when (negb (samples =? 0)) (pull_raw_frame r)
   else ret tt)
    (machine_of st NULL (armed_decoder r d)
                (t ++ release_calls d ++ push_calls st d r)).
Proof.
  unfold stream_gst_data.
  step_with release_last_frame_spec.
  step_with pipeline_threads_spec.
  step_with update_decoder_spec.
  step_with push_compressed_buffer_spec.
  step_with pipeline_threads_spec.
  unfold armed_decoder, push_calls.
  cbn [appsrc set_pipeline_wait]. rewrite deliver_all_appsrc.
  cbn [appsrc released_decoder]. rewrite <- app_assoc. reflexivity.
Qed.

Lemma stream_gst_data_not_injected r st o d t :
  injected st r = false ->
  stream_gst_data r (machine_of st o d t) =
  Returns tt (machine_of st NULL (armed_decoder r d)
                         (t ++ release_calls d ++ push_calls st d r)).
Proof.
  intros Hinj. rewrite stream_gst_data_prologue, Hinj. reflexivity.
Qed.

(** The decode call whose buffer is injected: it either never wakes, which
    takes a pipeline that delivers no callback at all once the flag is
    armed, or it sleeps through the groups [slept], consumes, and pulls when
    the count it read was not zero. *)
Lemma stream_gst_data_injected r st o d t :
  injected st r = true ->
  let t1 := t ++ release_calls d ++ push_calls st d r in
  (before_wait r = [] /\ concat (wakes r) = [] /\
   stream_gst_data r (machine_of st o d t) =
     Blocked (machine_of st NULL (armed_decoder r d)
                (t1 ++ repeat g_cond_wait (S (length (wakes r))))))
  \/
  (exists slept rest,
      wakes r = slept ++ rest /\
      (before_wait r <> [] -> slept = []) /\
      (before_wait r = [] -> concat slept <> []) /\
      let d4 := deliver_all (concat slept) (armed_decoder r d) in
      let d6 := deliver_all (concat rest) (consumed_decoder d4) in
      let t2 := t1 ++ repeat g_cond_wait (length slept) in
      stream_gst_data r (machine_of st o d t) =
        if samples_count d4 =? 0 then Returns tt (machine_of st NULL d6 t2)
        else Returns tt (machine_of st (pulled_frame r NULL) (pulled_decoder r d6)
                                    (t2 ++ pull_calls r d6))).
Proof.
  intros Hinj t1. rewrite stream_gst_data_prologue, Hinj.
  fold t1.
  assert (Hw : pipeline_wait (armed_decoder r d) =
               match before_wait r with [] => 1 | _ => 0 end).
  { unfold armed_decoder. rewrite deliver_all_wait.
    destruct (before_wait r); reflexivity. }
  destruct (wait_loop_spec (wakes r) st NULL (armed_decoder r d) t1)
    as [(slept & rest & Hws & Hrun & _ & Hz & Hnz) | (Hnz & Hc & Hrun)].
  - right. exists slept, rest. split; [exact Hws|].
    split.
    { intros Hb. apply Hz. rewrite Hw. destruct (before_wait r); congruence. }
    split.
    { intros Hb. apply Hnz. rewrite Hw, Hb. discriminate. }
    cbv zeta. step_with Hrun.
    step_with update_decoder_spec.
    step_with deref_decoder_spec.
    cbn [samples_count set_pipeline_wait].
    unfold consumed_decoder.
    destruct (samples_count (deliver_all (concat slept) (armed_decoder r d)) =? 0)
      eqn:Es; cbn [negb when].
    + step_with (fun m => eq_refl (ret tt m)). step_with pipeline_threads_spec.
      reflexivity.
    + step_with update_decoder_spec. step_with pipeline_threads_spec.
      rewrite pull_raw_frame_spec. reflexivity.
  - left. rewrite Hw in Hnz. destruct (before_wait r) eqn:Hb; [|congruence].
    split; [reflexivity|]. split; [exact Hc|].
    unfold bind. rewrite Hrun. reflexivity.
Qed.


(** ** Topology builder *)

Example stream_gst_init_sample :
  stream_gst_init sample_world sample_machine = Returns tt started_machine.
Proof. reflexivity. Qed.

Example pipeline_desc_mjpeg :
  pipeline_desc SPICE_VIDEO_CODEC_TYPE_MJPEG None =
  "appsrc name=src format=2 do-timestamp=1 caps=image/jpeg ! jpegdec ! videoconvert ! appsink name=sink caps=video/x-raw,format=BGRx".
Proof. reflexivity. Qed.

Example pipeline_desc_vp8 :
  pipeline_desc SPICE_VIDEO_CODEC_TYPE_VP8 None =
  "appsrc name=src format=2 do-timestamp=1 caps=video/x-vp8 ! vp8dec ! videoconvert ! appsink name=sink caps=video/x-raw,format=BGRx".
Proof. reflexivity. Qed.

Example pipeline_desc_h264 :
  pipeline_desc SPICE_VIDEO_CODEC_TYPE_H264 None =
  "appsrc name=src format=2 do-timestamp=1 caps=video/x-h264 ! h264parse ! avdec_h264 ! videoconvert ! appsink name=sink caps=video/x-raw,format=BGRx".
Proof. reflexivity. Qed.

Example pipeline_desc_unknown n gst_auto :
  pipeline_desc (SPICE_VIDEO_CODEC_TYPE_other n) gst_auto =
  "appsrc name=src format=2 do-timestamp=1 typefind=true ! decodebin ! videoconvert ! appsink name=sink caps=video/x-raw,format=BGRx".
Proof. reflexivity. Qed.

(** C8, as stated, fails: no value of SPICE_GST_AUTO activates the caps
    override (typefind=true) for motion-JPEG while leaving the decoder
    override inactive (jpegdec kept); the single variable that switches the
    caps also switches the decoder. *)
Lemma caps_override_never_alone :
  ~ (exists gst_auto : option string,
        caps_override_active SPICE_VIDEO_CODEC_TYPE_MJPEG gst_auto = true /\
        decoder_override_active SPICE_VIDEO_CODEC_TYPE_MJPEG gst_auto = false).
Proof.
  intros [[v|] [Hc Hd]].
  - unfold decoder_override_active in Hd. cbn in Hd. discriminate.
  - unfold caps_override_active in Hc. cbn in Hc. discriminate.
Qed.

(** C8, amended: for each of the three codec kinds, with SPICE_GST_AUTO
    unset the description carries the codec's own caps and decoder fragment;
    set to "decodebin" it carries the codec's caps and the generic decoder
    (decoder override alone); set to any other value it carries
    typefind=true and the generic decoder (both overrides); so the caps
    override is never active without the decoder override. *)
Theorem topology_builder_overrides (c : SpiceVideoCodecType) :
  known_codec c = true ->
  Some (select_src_caps c None) = codec_src_caps c /\
  Some (select_gstdec_name c None) = codec_gstdec_name c /\
  caps_override_active c None = false /\
  decoder_override_active c None = false /\
  Some (select_src_caps c (Some "decodebin")) = codec_src_caps c /\
  select_gstdec_name c (Some "decodebin") = "decodebin" /\
  caps_override_active c (Some "decodebin") = false /\
  decoder_override_active c (Some "decodebin") = true /\
  (forall v, select_src_caps c (Some v) =
             if String.eqb v "decodebin" then select_src_caps c None
             else "typefind=true") /\
  (forall v, select_gstdec_name c (Some v) = "decodebin") /\
  (forall gst_auto,
      implb (caps_override_active c gst_auto)
            (decoder_override_active c gst_auto) = true) /\
  (forall gst_auto,
      pipeline_desc c gst_auto =
      ("appsrc name=src format=2 do-timestamp=1 " ++ select_src_caps c gst_auto
       ++ " ! " ++ select_gstdec_name c gst_auto
       ++ " ! videoconvert ! appsink name=sink caps=video/x-raw,format=BGRx")%string).
Proof.
  intros Hk.
  destruct c; try discriminate Hk;
    repeat match goal with |- _ /\ _ => split end; try reflexivity;
    match goal with
    | |- forall _ : option string, _ => intros [v|]; [|reflexivity]
    | |- forall _ : string, _ => intros v
    end;
    unfold caps_override_active, decoder_override_active, select_src_caps,
      select_gstdec_name; cbn;
    destruct (String.eqb v "decodebin"); reflexivity.
Qed.

Lemma topology_builder_overrides_witness :
  known_codec SPICE_VIDEO_CODEC_TYPE_VP8 = true /\
  select_gstdec_name SPICE_VIDEO_CODEC_TYPE_VP8 None = "vp8dec" /\
  select_src_caps SPICE_VIDEO_CODEC_TYPE_VP8 (Some "decodebin") = "caps=video/x-vp8" /\
  select_gstdec_name SPICE_VIDEO_CODEC_TYPE_VP8 (Some "decodebin") = "decodebin".
Proof.
  pose proof (topology_builder_overrides SPICE_VIDEO_CODEC_TYPE_VP8 eq_refl)
    as (_ & Hdec & _ & _ & Hcaps & Hgen & _).
  split; [reflexivity|].
  split; [exact (f_equal (fun o => match o with Some s => s | None => "" end) Hdec)|].
  split; [|exact Hgen].
  exact (f_equal (fun o => match o with Some s => s | None => "" end) Hcaps).
Defined.


(** ** Decode calls that inject nothing *)

Lemma injected_false st r :
  frame_size st = 0 \/ push_ret r <> GST_FLOW_OK -> injected st r = false.
Proof.
  unfold injected. intros [H|H].
  - rewrite H. reflexivity.
  - apply Z.eqb_neq in H. rewrite H. apply andb_false_r.
Qed.

Lemma no_wait_before_the_loop st d r :
  ~ In g_cond_wait (release_calls d ++ push_calls st d r).
Proof.
  unfold release_calls, push_calls. intros H.
  repeat (apply in_app_or in H as [H|H]);
    repeat match type of H with
           | In _ (if ?b then _ else _) => destruct b
           | In _ [] => destruct H
           | In _ (_ :: _) => destruct H as [H|H]; [discriminate H|]
           end.
Qed.

(** C3: when the current compressed frame is empty, or when
    gst_app_src_push_buffer refuses the buffer, stream_gst_data returns with
    out_frame NULL whatever the pipeline does or does not do; the calls it
    made are the release of the previous lease and the attempt to push, none
    of them g_cond_wait; and with an empty frame no buffer is created and
    nothing is pushed. *)
Theorem decode_without_injection_returns_at_once r m d :
  gst_dec (stream m) = Some d ->
  frame_size (stream m) = 0 \/ push_ret r <> GST_FLOW_OK ->
  exists m' cs,
    stream_gst_data r m = Returns tt m' /\
    NoOutput (stream m') /\
    trace m' = trace m ++ cs /\
    ~ In g_cond_wait cs /\
    (frame_size (stream m) = 0 ->
     cs = release_calls d /\
     forall src ret, ~ In (gst_app_src_push_buffer src ret) cs).
Proof.
  intros Hd Hrefused.
  expose_machine m Hd.
  rewrite stream_gst_data_not_injected by (apply injected_false; exact Hrefused).
  eexists. eexists.
  split; [reflexivity|]. split; [reflexivity|]. split; [reflexivity|].
  split; [apply no_wait_before_the_loop|].
  intros Hsize. unfold push_calls. cbn [frame_size]. rewrite Hsize. cbn [Z.eqb].
  rewrite app_nil_r. split; [reflexivity|].
  intros src ret H. unfold release_calls in H.
  repeat (apply in_app_or in H as [H|H]);
    repeat match type of H with
           | In _ (if ?b then _ else _) => destruct b
           | In _ [] => destruct H
           | In _ (_ :: _) => destruct H as [H|H]; [discriminate H|]
           end.
Qed.

Lemma decode_without_injection_returns_at_once_witness :
  exists m',
    stream_gst_data (mkRun 1 2000 (Some sample_mapinfo) [] [] [])
      started_machine = Returns tt m' /\
    NoOutput (stream m').
Proof.
  destruct (decode_without_injection_returns_at_once
              (mkRun 1 2000 (Some sample_mapinfo) [] [] [])
              started_machine sample_decoder eq_refl)
    as (m' & cs & Hrun & Hout & _).
  - right. cbn. discriminate.
  - exists m'. split; assumption.
Defined.

(** ** Streams without a decoder *)

Lemma release_last_frame_null m :
  gst_dec (stream m) = None -> release_last_frame m = Segfault m.
Proof.
  intros H. unfold release_last_frame, bind, deref_decoder. rewrite H. reflexivity.
Qed.

Lemma stream_gst_data_null r m :
  gst_dec (stream m) = None -> stream_gst_data r m = Segfault m.
Proof.
  intros H. unfold stream_gst_data. unfold bind at 1.
  rewrite release_last_frame_null by exact H. reflexivity.
Qed.

Lemma gst_decoder_new_fails w st t :
  parse_launch w (pipeline_desc (codec st) (getenv_SPICE_GST_AUTO w)) = NULL \/
  set_state_playing w = GST_STATE_CHANGE_FAILURE ->
  fst (gst_decoder_new w st t) = None.
Proof.
  intros H. unfold gst_decoder_new, construct_pipeline.
  cbn [pipeline set_pipeline set_pipeline_wait set_samples_count].
  destruct (is_null (parse_launch w (pipeline_desc (codec st) (getenv_SPICE_GST_AUTO w))))
    eqn:Ep.
  - reflexivity.
  - destruct H as [H|H].
    + rewrite H in Ep. discriminate.
    + rewrite H. cbn [is_failure]. unfold reset_pipeline.
      cbn [pipeline set_appsink set_appsrc set_pipeline]. rewrite Ep. reflexivity.
Qed.

(** C4, on the code: after a failed stream_gst_init the stream has no
    decoder, and stream_gst_data then reads through the NULL st->gst_dec in
    release_last_frame: the call faults instead of reporting NoOutput. *)
Theorem decode_after_failed_init_faults w r m :
  parse_launch w (pipeline_desc (codec (stream m)) (getenv_SPICE_GST_AUTO w)) = NULL \/
  set_state_playing w = GST_STATE_CHANGE_FAILURE ->
  exists m1,
    stream_gst_init w m = Returns tt m1 /\
    gst_dec (stream m1) = None /\
    stream_gst_data r m1 = Segfault m1.
Proof.
  intros H. unfold stream_gst_init.
  pose proof (gst_decoder_new_fails w (stream m) (trace m) H) as Hnew.
  destruct (gst_decoder_new w (stream m) (trace m)) as [dec t]. cbn in Hnew. subst dec.
  eexists. split; [reflexivity|]. split; [reflexivity|].
  apply stream_gst_data_null. reflexivity.
Qed.

Lemma decode_after_failed_init_faults_witness :
  exists m1,
    stream_gst_init refusing_world sample_machine = Returns tt m1 /\
    stream_gst_data (sample_run [] [[new_sample]]) m1 = Segfault m1.
Proof.
  destruct (decode_after_failed_init_faults refusing_world
              (sample_run [] [[new_sample]]) sample_machine)
    as (m1 & Hinit & _ & Hrun).
  - left. reflexivity.
  - exists m1. split; assumption.
Defined.

(** C5, on the code: stream_gst_cleanup calls release_last_frame before it
    tests st->gst_dec, and release_last_frame reads through that pointer;
    on a stream without a decoder the call faults. *)
Theorem cleanup_without_decoder_faults m :
  gst_dec (stream m) = None -> stream_gst_cleanup m = Segfault m.
Proof.
  intros H. unfold stream_gst_cleanup. unfold bind at 1.
  rewrite release_last_frame_null by exact H. reflexivity.
Qed.

Lemma cleanup_without_decoder_faults_witness :
  gst_dec (stream sample_machine) = None /\
  stream_gst_cleanup sample_machine = Segfault sample_machine.
Proof.
  split; [reflexivity|].
  apply (cleanup_without_decoder_faults sample_machine). reflexivity.
Defined.

(** X8: reset_pipeline itself is safe to repeat: it leaves the decoder
    without pipeline, and once the pipeline is gone a further reset_pipeline
    changes nothing and makes no call. *)
Lemma reset_pipeline_idempotent decoder t :
  let (decoder', t') := reset_pipeline decoder t in
  pipeline decoder' = NULL /\ reset_pipeline decoder' t' = (decoder', t').
Proof.
  unfold reset_pipeline. destruct (is_null (pipeline decoder)) eqn:E.
  - rewrite E. split; [apply Z.eqb_eq; exact E | reflexivity].
  - cbn [pipeline set_pipeline]. split; reflexivity.
Qed.

(** The first cleanup of a stream that has a decoder returns and leaves no
    decoder and no output frame; the second one, on that stream, faults. *)
Lemma cleanup_twice_faults m d :
  gst_dec (stream m) = Some d ->
  exists m1,
    stream_gst_cleanup m = Returns tt m1 /\
    gst_dec (stream m1) = None /\
    out_frame (stream m1) = NULL /\
    stream_gst_cleanup m1 = Segfault m1.
Proof.
  intros Hd. expose_machine m Hd.
  unfold stream_gst_cleanup at 1.
  step_with release_last_frame_spec.
  eexists. split; [reflexivity|].
  split; [reflexivity|]. split; [reflexivity|].
  unfold stream_gst_cleanup. unfold bind at 1.
  rewrite release_last_frame_null by reflexivity. reflexivity.
Qed.

Example cleanup_after_failed_init :
  (stream_gst_init refusing_world ;; stream_gst_cleanup) sample_machine =
  Segfault (mkMachine sample_stream
              [gst_init; g_malloc0; g_mutex_init; g_cond_init;
               gst_parse_launch_full
                 (pipeline_desc SPICE_VIDEO_CODEC_TYPE_MJPEG None) NULL;
               g_free]).
Proof. reflexivity. Qed.


(** ** Failed constructions *)

(** C9, on the code: when gst_parse_launch_full refuses the description,
    construct_pipeline returns FALSE at once and gst_decoder_new frees the
    decoder, but the mutex and the condition variable initialised at the top
    of construct_pipeline are never cleared: they are what remains. *)
Theorem refused_description_leaves_mutex_and_cond w st :
  parse_launch w (pipeline_desc (codec st) (getenv_SPICE_GST_AUTO w)) = NULL ->
  fst (gst_decoder_new w st []) = None /\
  snd (gst_decoder_new w st []) =
    [gst_init; g_malloc0; g_mutex_init; g_cond_init;
     gst_parse_launch_full (pipeline_desc (codec st) (getenv_SPICE_GST_AUTO w)) NULL;
     g_free] /\
  outstanding (snd (gst_decoder_new w st [])) = [res_mutex; res_cond].
Proof.
  intros H. unfold gst_decoder_new, construct_pipeline.
  cbn [pipeline set_pipeline set_pipeline_wait set_samples_count].
  rewrite H. cbn. repeat split; reflexivity.
Qed.

Lemma refused_description_leaves_mutex_and_cond_witness :
  fst (gst_decoder_new refusing_world sample_stream []) = None /\
  outstanding (snd (gst_decoder_new refusing_world sample_stream [])) =
    [res_mutex; res_cond].
Proof.
  destruct (refused_description_leaves_mutex_and_cond refusing_world sample_stream
              eq_refl) as (Hnone & _ & Hout).
  split; assumption.
Defined.

(** X7: the other failure, a refused change to the playing state (with the
    description accepted and both endpoints found), goes through
    reset_pipeline: gst_decoder_new returns NULL and nothing of what the
    attempt acquired remains held. *)
Lemma failed_state_change_releases_everything w st :
  parse_launch w (pipeline_desc (codec st) (getenv_SPICE_GST_AUTO w)) <> NULL ->
  get_src w <> NULL -> get_sink w <> NULL ->
  set_state_playing w = GST_STATE_CHANGE_FAILURE ->
  fst (gst_decoder_new w st []) = None /\
  outstanding (snd (gst_decoder_new w st [])) = [].
Proof.
  intros Hp Hsrc Hsink Hfail. unfold gst_decoder_new, construct_pipeline.
  cbn [pipeline appsrc appsink set_pipeline set_appsrc set_appsink
       set_pipeline_wait set_samples_count].
  set (p := parse_launch w (pipeline_desc (codec st) (getenv_SPICE_GST_AUTO w))) in *.
  assert (Ep : is_null p = false) by (apply Z.eqb_neq; exact Hp).
  assert (Es : is_null (get_src w) = false) by (apply Z.eqb_neq; exact Hsrc).
  assert (Ek : is_null (get_sink w) = false) by (apply Z.eqb_neq; exact Hsink).
  rewrite Ep, Hfail. cbn [is_failure]. unfold reset_pipeline.
  cbn [pipeline appsrc appsink set_pipeline set_appsrc set_appsink]. rewrite Ep.
  cbn [negb fst snd app]. split; [reflexivity|].
  unfold outstanding. cbn [fold_left]. unfold account.
  cbn [released acquired fold_left app if_ptr]. unfold if_ptr.
  rewrite Ep, Es, Ek. cbn [fold_left app remove_one resource_eqb].
  clear Ep Es Ek Hp Hsrc Hsink.
  generalize (get_src w) (get_sink w). clearbody p. intros a b.
  rewrite !app_nil_r.
  repeat (cbn [remove_one resource_eqb app]; rewrite ?Z.eqb_refl;
          try match goal with
              | |- context [?x =? ?y] => destruct (Z.eqb_spec x y); subst
              end);
    solve [reflexivity | congruence].
Qed.


(** ** Decode calls that inject: what the caller reads and leaves *)

Lemma only_need_data_outputs ns : only_need_data ns <-> outputs ns = 0.
Proof.
  unfold only_need_data. induction ns as [|n ns IH]; cbn [outputs].
  - split; auto.
  - pose proof (outputs_nonneg ns) as Hpos. split.
    + intros H. inversion H as [|n' ns' Hn Hns]; subst.
      cbn [samples_of]. apply IH in Hns. lia.
    + intros H'. destruct n; cbn [samples_of] in H'; [|lia].
      constructor; [reflexivity | apply IH; lia].
Qed.

(** The count after the callbacks [ns] that follow the arming. *)
Lemma armed_count r d ns :
  wf_decoder d ->
  samples_count (deliver_all ns (armed_decoder r d)) =
  u32 (samples_count (deliver_all (before_arm r) d) + outputs (before_wait r ++ ns)).
Proof.
  intros Hwf. unfold armed_decoder.
  rewrite <- deliver_all_app.
  rewrite deliver_all_count.
  2:{ unfold wf_decoder. cbn [samples_count set_pipeline_wait].
      apply deliver_all_wf. exact Hwf. }
  cbn [samples_count set_pipeline_wait].
  rewrite !deliver_all_count by exact Hwf.
  reflexivity.
Qed.

Lemma armed_sample r d ns : sample (deliver_all ns (armed_decoder r d)) = NULL.
Proof.
  unfold armed_decoder. rewrite !deliver_all_sample.
  cbn [sample set_pipeline_wait]. rewrite deliver_all_sample. reflexivity.
Qed.

Lemma armed_memory r d ns :
  memory (mapinfo (deliver_all ns (armed_decoder r d))) = NULL.
Proof.
  unfold armed_decoder. rewrite !deliver_all_mapinfo.
  cbn [mapinfo set_pipeline_wait]. rewrite deliver_all_mapinfo. reflexivity.
Qed.

Lemma consumed_decoder_eq d :
  consumed_decoder d =
  mkDecoder (pipeline d) (appsrc d) (appsink d) 1
            (if samples_count d =? 0 then samples_count d
             else u32 (samples_count d - 1))
            (sample d) (mapinfo d).
Proof. unfold consumed_decoder. destruct (samples_count d =? 0); reflexivity. Qed.

(** The decoder at the end of the locked section and of the callbacks
    [late] that follow it. *)
Lemma late_sample late d : sample (deliver_all late (consumed_decoder d)) = sample d.
Proof. rewrite deliver_all_sample, consumed_decoder_eq. reflexivity. Qed.

Lemma late_memory late d :
  memory (mapinfo (deliver_all late (consumed_decoder d))) = memory (mapinfo d).
Proof. rewrite deliver_all_mapinfo, consumed_decoder_eq. reflexivity. Qed.


Lemma late_count late d :
  wf_decoder d ->
  samples_count (deliver_all late (consumed_decoder d)) =
  u32 ((if samples_count d =? 0 then 0 else samples_count d - 1) + outputs late).
Proof.
  intros Hwf. unfold wf_decoder in Hwf.
  rewrite deliver_all_count.
  - rewrite consumed_decoder_eq. cbn [samples_count].
    destruct (Z.eqb_spec (samples_count d) 0) as [E|E].
    + rewrite E. reflexivity.
    + apply u32_add_l.
  - unfold wf_decoder. rewrite consumed_decoder_eq. cbn [samples_count].
    destruct (Z.eqb_spec (samples_count d) 0); [exact Hwf | apply u32_range].
Qed.

Lemma pulled_count r d : samples_count (pulled_decoder r d) = samples_count d.
Proof.
  unfold pulled_decoder. destruct (is_null (pull_ret r)); [reflexivity|].
  destruct (map_ret r); reflexivity.
Qed.


Lemma pulls_app a b : pulls (a ++ b) = pulls a + pulls b.
Proof.
  induction a as [|c a IH]; cbn [app pulls]; [lia|].
  destruct c; lia.
Qed.

Lemma pulls_repeat_wait k : pulls (repeat g_cond_wait k) = 0.
Proof. induction k as [|k IH]; cbn [repeat pulls]; [reflexivity | exact IH]. Qed.

Lemma pulls_release d : pulls (release_calls d) = 0.
Proof.
  unfold release_calls.
  destruct (is_null (memory (mapinfo d))); destruct (is_null (sample d)); reflexivity.
Qed.

Lemma pulls_push st d r : pulls (push_calls st d r) = 0.
Proof. unfold push_calls. destruct (frame_size st =? 0); reflexivity. Qed.

Lemma pulls_pull r d : pulls (pull_calls r d) = 1.
Proof. unfold pull_calls. destruct (is_null (pull_ret r)); reflexivity. Qed.

(** The calls a decode makes before it consumes pull nothing. *)
Lemma pulls_before_consume t st d r k :
  pulls ((t ++ release_calls d ++ push_calls st d r) ++ repeat g_cond_wait k) =
  pulls t.
Proof.
  rewrite !pulls_app, pulls_release, pulls_push, pulls_repeat_wait. lia.
Qed.


(** ** The callbacks the caller has seen when it reads the count *)

Lemma wait_loop_flag_clear ws st o d t :
  pipeline_wait d = 0 ->
  wait_loop ws (machine_of st o d t) = Returns ws (machine_of st o d t).
Proof.
  intros H. destruct ws; cbn [wait_loop]; unfold bind, deref_decoder, machine_of;
    cbn; rewrite H; reflexivity.
Qed.

Lemma first_wake_nil ws : first_wake ws = [] -> concat ws = [].
Proof.
  induction ws as [|ns ws IH]; cbn [first_wake concat]; [reflexivity|].
  destruct ns; [exact IH | discriminate].
Qed.

(** With the flag set, the wait loop sleeps through the spurious wake-ups
    and ends with the first group of callbacks. *)
Lemma wait_loop_first_wake ws : forall st o d t,
  pipeline_wait d <> 0 ->
  first_wake ws <> [] ->
  exists k rest,
    wait_loop ws (machine_of st o d t) =
      Returns rest (machine_of st o (deliver_all (first_wake ws) d)
                               (t ++ repeat g_cond_wait k)) /\
    concat ws = first_wake ws ++ concat rest.
Proof.
  induction ws as [|ns ws IH]; intros st o d t Hflag Hfw.
  - contradiction.
  - cbn [wait_loop]. unfold bind at 1. unfold deref_decoder, machine_of. cbn.
    apply Z.eqb_neq in Hflag. rewrite Hflag. apply Z.eqb_neq in Hflag. cbn.
    unfold bind, emit, pipeline_threads, set_gst_dec. cbn.
    destruct ns as [|n ns].
    + cbn [first_wake] in Hfw |- *.
      destruct (IH st o d (t ++ [g_cond_wait]) Hflag Hfw) as (k & rest & Hrun & Hcat).
      exists (S k), rest. unfold machine_of in Hrun. cbn in Hrun.
      cbn [deliver_all fold_left]. rewrite Hrun.
      split; [rewrite <- app_assoc; reflexivity | exact Hcat].
    + exists 1%nat, ws. cbn [first_wake concat repeat]. split; [|reflexivity].
      apply (wait_loop_flag_clear ws st o (deliver_all (n :: ns) d) (t ++ [g_cond_wait])).
      rewrite deliver_all_wait. reflexivity.
Qed.

(** The decode call whose buffer is injected and to which a callback comes:
    the count is read after the callbacks of [seen_before_read]. *)
Lemma stream_gst_data_injected_seen r st o d t :
  injected st r = true ->
  after_arming r <> [] ->
  exists woke late k,
    seen_before_read r = before_wait r ++ woke /\
    after_arming r = seen_before_read r ++ late /\
    seen_before_read r <> [] /\
    let d4 := deliver_all woke (armed_decoder r d) in
    let d6 := deliver_all late (consumed_decoder d4) in
    let t2 := (t ++ release_calls d ++ push_calls st d r) ++ repeat g_cond_wait k in
    stream_gst_data r (machine_of st o d t) =
      if samples_count d4 =? 0 then Returns tt (machine_of st NULL d6 t2)
      else Returns tt (machine_of st (pulled_frame r NULL) (pulled_decoder r d6)
                                  (t2 ++ pull_calls r d6)).
Proof.
  intros Hinj Hsome. rewrite stream_gst_data_prologue, Hinj.
  assert (Hw : pipeline_wait (armed_decoder r d) =
               match before_wait r with [] => 1 | _ => 0 end).
  { unfold armed_decoder. rewrite deliver_all_wait.
    destruct (before_wait r); reflexivity. }
  assert (Hfin : forall woke late k,
    (rest <- (fun m => Returns late m) ;;
     update_decoder (set_pipeline_wait 1) ;;
     decoder <- deref_decoder ;;
     let samples := samples_count decoder in
     when (negb (samples =? 0))
       (update_decoder (fun d => set_samples_count (u32 (samples_count d - 1)) d)) ;;
     pipeline_threads (concat rest) ;;
     when (negb (samples =? 0)) (pull_raw_frame r))
      (machine_of st NULL (deliver_all woke (armed_decoder r d))
         ((t ++ release_calls d ++ push_calls st d r) ++ repeat g_cond_wait k)) =
    let d4 := deliver_all woke (armed_decoder r d) in
    let d6 := deliver_all (concat late) (consumed_decoder d4) in
    let t2 := (t ++ release_calls d ++ push_calls st d r) ++ repeat g_cond_wait k in
    if samples_count d4 =? 0 then Returns tt (machine_of st NULL d6 t2)
    else Returns tt (machine_of st (pulled_frame r NULL) (pulled_decoder r d6)
                                (t2 ++ pull_calls r d6))).
  { intros woke late k. cbv zeta.
    step_with (fun m => eq_refl (Returns late m)).
    step_with update_decoder_spec.
    step_with deref_decoder_spec.
    cbn [samples_count set_pipeline_wait].
    unfold consumed_decoder.
    destruct (samples_count (deliver_all woke (armed_decoder r d)) =? 0);
      cbn [negb when].
    + step_with (fun m => eq_refl (ret tt m)). step_with pipeline_threads_spec.
      reflexivity.
    + step_with update_decoder_spec. step_with pipeline_threads_spec.
      rewrite pull_raw_frame_spec. reflexivity. }
  unfold seen_before_read, after_arming in *.
  destruct (before_wait r) as [|n bw] eqn:Hb.
  - cbn [app] in Hsome |- *.
    assert (Hfw : first_wake (wakes r) <> []).
    { intros H. apply first_wake_nil in H. contradiction. }
    destruct (wait_loop_first_wake (wakes r) st NULL (armed_decoder r d)
                (t ++ release_calls d ++ push_calls st d r))
      as (k & rest & Hrun & Hcat); [rewrite Hw; discriminate | exact Hfw |].
    exists (first_wake (wakes r)), (concat rest), k.
    split; [reflexivity|]. split; [exact Hcat|]. split; [exact Hfw|].
    rewrite <- (Hfin (first_wake (wakes r)) rest k).
    unfold bind at 1 3. rewrite Hrun. reflexivity.
  - exists [], (concat (wakes r)), 0%nat.
    split; [rewrite app_nil_r; reflexivity|]. split; [reflexivity|].
    split; [discriminate|].
    rewrite <- (Hfin [] (wakes r) 0%nat).
    unfold bind at 1 3.
    rewrite (wait_loop_flag_clear (wakes r) st NULL (armed_decoder r d)) by (rewrite Hw; reflexivity).
    cbn [deliver_all fold_left repeat]. rewrite app_nil_r. reflexivity.
Qed.

Lemma app_eq_single {A} (a b : list A) (x : A) :
  a ++ b = [x] -> a <> [] -> a = [x] /\ b = [].
Proof.
  intros H Ha. apply app_eq_unit in H as [[H1 H2] | [H1 H2]]; [contradiction | auto].
Qed.

(** C1, as stated, fails: after a call that the input-ready callback woke
    before the output arrived, the count still holds that output; the next
    call, in which the pipeline signals input-ready only, returns a frame. *)
Lemma input_ready_alone_can_yield_a_frame :
  exists m1 m2 d2,
    (stream_gst_init sample_world ;;
     stream_gst_data (sample_run [] [[need_data]; [new_sample]])) sample_machine
      = Returns tt m1 /\
    NoOutput (stream m1) /\
    injected (stream m1) (sample_run [] [[need_data]]) = true /\
    only_need_data (before_arm (sample_run [] [[need_data]]) ++
                    after_arming (sample_run [] [[need_data]])) /\
    stream_gst_data (sample_run [] [[need_data]]) m1 = Returns tt m2 /\
    gst_dec (stream m2) = Some d2 /\
    out_frame (stream m2) = 3001 /\
    sample d2 = 2000 /\
    memory (mapinfo d2) = 3000.
Proof.
  do 3 eexists.
  split; [vm_compute; reflexivity|].
  split; [reflexivity|].
  split; [reflexivity|].
  split; [repeat constructor|].
  split; [vm_compute; reflexivity|].
  repeat split; reflexivity.
Qed.

(** C1, amended: on a decoder whose count of available outputs is zero
    when the call starts, a call whose buffer is injected and to which a
    callback comes once the flag is armed returns NoOutput, with no sample,
    no mapping and no pull, when every callback of the call is input-ready;
    and returns the mapped data pointer, non-NULL, with the count back to
    zero, when output-ready is signalled exactly once during the call, among
    any number of input-ready callbacks, and runs before the caller reads
    the count, and the pull and the map succeed. *)
Theorem decode_outcome_from_zero_count m d r_in r_out mi :
  gst_dec (stream m) = Some d ->
  samples_count d = 0 ->
  injected (stream m) r_in = true ->
  only_need_data (before_arm r_in ++ after_arming r_in) ->
  after_arming r_in <> [] ->
  injected (stream m) r_out = true ->
  outputs (before_arm r_out ++ after_arming r_out) = 1 ->
  outputs (before_arm r_out ++ seen_before_read r_out) = 1 ->
  after_arming r_out <> [] ->
  pull_ret r_out <> NULL ->
  map_ret r_out = Some mi ->
  data mi <> NULL ->
  (exists m' d',
      stream_gst_data r_in m = Returns tt m' /\
      NoOutput (stream m') /\
      gst_dec (stream m') = Some d' /\
      sample d' = NULL /\
      memory (mapinfo d') = NULL /\
      samples_count d' = 0 /\
      pulls (trace m') = pulls (trace m)) /\
  (exists m' d',
      stream_gst_data r_out m = Returns tt m' /\
      out_frame (stream m') = data mi /\
      out_frame (stream m') <> NULL /\
      gst_dec (stream m') = Some d' /\
      sample d' = pull_ret r_out /\
      mapinfo d' = mi /\
      samples_count d' = 0).
Proof.
  intros Hd Hzero Hinj_in Honly_in Hsome_in Hinj_out Honce Hcounted Hsome_out
         Hpull Hmap Hdata.
  assert (Hwf : wf_decoder d) by (unfold wf_decoder; rewrite Hzero; lia).
  expose_machine m Hd.
  set (st := mkStream c ms fd fs o (Some d)) in *.
  split.
  - (* input-ready only *)
    apply only_need_data_outputs in Honly_in.
    rewrite outputs_app in Honly_in. unfold after_arming in *.
    pose proof (outputs_nonneg (before_arm r_in)).
    pose proof (outputs_nonneg (before_wait r_in ++ concat (wakes r_in))).
    assert (Hc0 : samples_count (deliver_all (before_arm r_in) d) = 0).
    { rewrite deliver_all_count by exact Hwf. rewrite Hzero.
      replace (outputs (before_arm r_in)) with 0 by lia. reflexivity. }
    destruct (stream_gst_data_injected r_in st o d t Hinj_in)
      as [(Hb & Hw & _) | (slept & rest & Hws & _ & _ & Hrun)].
    { rewrite Hb, Hw in Hsome_in. contradiction. }
    cbv zeta in Hrun.
    rewrite Hws, concat_app, app_assoc, outputs_app in Honly_in.
    pose proof (outputs_nonneg (before_wait r_in ++ concat slept)).
    pose proof (outputs_nonneg (concat rest)).
    assert (Hs : samples_count (deliver_all (concat slept) (armed_decoder r_in d)) = 0).
    { rewrite armed_count by exact Hwf. rewrite Hc0.
      replace (outputs (before_wait r_in ++ concat slept)) with 0 by lia.
      reflexivity. }
    rewrite Hs in Hrun. cbn [Z.eqb] in Hrun.
    eexists. eexists. split; [exact Hrun|].
    split; [reflexivity|]. split; [reflexivity|].
    split; [rewrite late_sample; apply armed_sample|].
    split; [rewrite late_memory; apply armed_memory|].
    split.
    + rewrite late_count.
      * rewrite Hs. cbn [Z.eqb].
        replace (outputs (concat rest)) with 0 by lia. reflexivity.
      * unfold wf_decoder. rewrite Hs. lia.
    + cbn [trace machine_of]. apply pulls_before_consume.
  - (* output-ready once, counted before the read *)
    destruct (stream_gst_data_injected_seen r_out st o d t Hinj_out Hsome_out)
      as (woke & late & k & Hseen & Hsplit & _ & Hrun).
    cbv zeta in Hrun.
    rewrite Hsplit, app_assoc, outputs_app in Honce.
    pose proof (outputs_nonneg late) as Hl.
    assert (Hlate : outputs late = 0) by lia.
    rewrite outputs_app in Hcounted.
    pose proof (outputs_nonneg (before_arm r_out)) as Hba.
    pose proof (outputs_nonneg (seen_before_read r_out)) as Hse.
    assert (Hs : samples_count (deliver_all woke (armed_decoder r_out d)) = 1).
    { rewrite armed_count by exact Hwf. rewrite <- Hseen.
      rewrite deliver_all_count by exact Hwf. rewrite Hzero, u32_add_l.
      cbn [Z.add]. rewrite Hcounted. reflexivity. }
    rewrite Hs in Hrun. cbn [Z.eqb] in Hrun.
    assert (Enull : is_null (pull_ret r_out) = false) by (apply Z.eqb_neq; exact Hpull).
    eexists. eexists. split; [exact Hrun|].
    cbn [stream out_frame gst_dec machine_of].
    unfold pulled_frame, pulled_decoder. rewrite Enull, Hmap.
    split; [reflexivity|]. split; [exact Hdata|]. split; [reflexivity|].
    split; [reflexivity|]. split; [reflexivity|].
    cbn [samples_count set_mapinfo set_sample].
    rewrite late_count.
    + rewrite Hs, Hlate. reflexivity.
    + unfold wf_decoder. rewrite Hs. lia.
Qed.

Lemma decode_outcome_from_zero_count_witness :
  (exists m', stream_gst_data (sample_run [] [[need_data]])
                started_machine = Returns tt m' /\
              NoOutput (stream m')) /\
  (exists m', stream_gst_data (sample_run [] [[need_data; new_sample]; [need_data]])
                started_machine = Returns tt m' /\
              out_frame (stream m') = 3001).
Proof.
  destruct (decode_outcome_from_zero_count
              started_machine sample_decoder
              (sample_run [] [[need_data]])
              (sample_run [] [[need_data; new_sample]; [need_data]])
              sample_mapinfo)
    as [(m1 & d1 & Hrun1 & Hno & _) (m2 & d2 & Hrun2 & Hout & _)].
  - reflexivity.
  - reflexivity.
  - reflexivity.
  - repeat constructor.
  - discriminate.
  - reflexivity.
  - reflexivity.
  - reflexivity.
  - discriminate.
  - discriminate.
  - reflexivity.
  - discriminate.
  - split; [exists m1 | exists m2]; split; assumption.
Defined.


(** ** Racing callbacks *)

(** C2, as stated, fails: the count is a uint32_t.  On a decoder whose
    count is already 2^32-1, the output-ready callback of the race wraps the
    count to zero; the caller reads zero, pulls nothing, and the count is
    zero at the return: the racing output, and those counted before it, are
    lost. *)
Lemma racing_output_lost_at_uint32_max :
  exists m' d',
    stream_gst_data (sample_run [] [[new_sample]; [need_data]])
      (machine_of sample_stream NULL
         (mkDecoder 1000 1001 1002 1 4294967295 NULL mapinfo_zero) []) =
      Returns tt m' /\
    injected sample_stream (sample_run [] [[new_sample]; [need_data]]) = true /\
    after_arming (sample_run [] [[new_sample]; [need_data]]) = [new_sample; need_data] /\
    wf_decoder (mkDecoder 1000 1001 1002 1 4294967295 NULL mapinfo_zero) /\
    gst_dec (stream m') = Some d' /\
    NoOutput (stream m') /\
    pulls (trace m') = 0 /\
    samples_count d' = 0.
Proof.
  do 2 eexists. split; [vm_compute; reflexivity|].
  split; [reflexivity|].
  split; [reflexivity|]. split; [unfold wf_decoder; cbn; lia|].
  repeat split; reflexivity.
Qed.

(** C2, amended: when input-ready and output-ready both come, in either
    order, once the flag is armed, the call returns: either callback clears
    the flag, so the wait loop ends after the callbacks [seen].  The caller
    then reads the count [s], takes one from it only when [s] is not zero,
    and the callbacks [late] add to what is left: the count is never
    negative, and the output is either consumed by this call or still
    counted at its return, except when the uint32_t count is at its maximum
    2^32-1 when the flag is armed and output-ready runs before the caller's
    read: the count then wraps to zero, nothing is pulled and the count is
    zero at the return. *)
Theorem race_is_absorbed r m d :
  gst_dec (stream m) = Some d ->
  wf_decoder d ->
  injected (stream m) r = true ->
  after_arming r = [need_data; new_sample] \/
  after_arming r = [new_sample; need_data] ->
  (forall d0 n, pipeline_wait (deliver d0 n) = 0) /\
  exists m' d' seen late,
    stream_gst_data r m = Returns tt m' /\
    gst_dec (stream m') = Some d' /\
    after_arming r = seen ++ late /\
    seen <> [] /\
    let c0 := samples_count (deliver_all (before_arm r) d) in
    let s := u32 (c0 + outputs seen) in
    let consumed := pulls (trace m') - pulls (trace m) in
    consumed = (if s =? 0 then 0 else 1) /\
    0 <= s - consumed /\
    samples_count d' = u32 (s - consumed + outputs late) /\
    0 <= samples_count d' < 2 ^ 32 /\
    (samples_count d' + consumed = c0 + 1 \/
     (c0 = 2 ^ 32 - 1 /\ outputs seen = 1 /\ s = 0 /\ consumed = 0 /\
      samples_count d' = 0)).
Proof.
  intros Hd Hwf Hinj Hrace.
  split; [intros d0 n; rewrite deliver_eq; reflexivity|].
  assert (Htotal : outputs (after_arming r) = 1)
    by (destruct Hrace as [-> | ->]; reflexivity).
  assert (Hsome : after_arming r <> [])
    by (destruct Hrace as [-> | ->]; discriminate).
  clear Hrace. unfold after_arming in *.
  expose_machine m Hd.
  set (st := mkStream c ms fd fs o (Some d)) in *.
  destruct (stream_gst_data_injected r st o d t Hinj)
    as [(Hb & Hw & _) | (slept & rest & Hws & Hz & Hnz & Hrun)].
  { rewrite Hb, Hw in Hsome. contradiction. }
  cbv zeta in Hrun.
  set (seen := before_wait r ++ concat slept) in *.
  set (late := concat rest) in *.
  assert (Hsplit : before_wait r ++ concat (wakes r) = seen ++ late).
  { subst seen late. rewrite Hws, concat_app, app_assoc. reflexivity. }
  assert (Hseen : seen <> []).
  { subst seen. intros Hnil. apply app_eq_nil in Hnil as [Hb Hsl]. now apply Hnz. }
  rewrite Hsplit, outputs_app in Htotal.
  pose proof (outputs_nonneg seen) as Hk. pose proof (outputs_nonneg late) as Hl.
  set (d4 := deliver_all (concat slept) (armed_decoder r d)) in *.
  assert (Hs : samples_count d4 =
               u32 (samples_count (deliver_all (before_arm r) d) + outputs seen)).
  { subst d4 seen. apply armed_count. exact Hwf. }
  assert (Hwf4 : wf_decoder d4) by (unfold wf_decoder; rewrite Hs; apply u32_range).
  pose proof (deliver_all_wf (before_arm r) d Hwf) as Hwf0. unfold wf_decoder in Hwf0.
  set (c0 := samples_count (deliver_all (before_arm r) d)) in *.
  pose proof (late_count late d4 Hwf4) as Hfin.
  pose proof (u32_range (c0 + outputs seen)) as Hsr.
  rewrite Hs in Hrun, Hfin. clear Hs.
  destruct (Z.eqb_spec (u32 (c0 + outputs seen)) 0) as [E|E].
  - (* nothing to consume *)
    eexists. eexists. exists seen, late. split; [exact Hrun|].
    cbn [stream gst_dec trace machine_of].
    split; [reflexivity|]. split; [exact Hsplit|]. split; [exact Hseen|].
    cbv zeta. fold c0. rewrite pulls_before_consume, Hfin, E, Z.sub_diag. cbn [Z.eqb].
    split; [reflexivity|]. split; [lia|]. split; [reflexivity|].
    split; [apply u32_range|].
    destruct (Z.eq_dec c0 (2 ^ 32 - 1)) as [Emax|Emax]; [right | left].
    + assert (Hone : outputs seen = 1).
      { destruct (Z.eq_dec (outputs seen) 0) as [E0|E0]; [|lia].
        rewrite E0, Z.add_0_r, u32_small in E by lia. lia. }
      split; [exact Emax|]. split; [exact Hone|]. split; [reflexivity|].
      split; [reflexivity|].
      replace (outputs late) with 0 by lia. reflexivity.
    + rewrite u32_small in E by lia.
      replace (outputs late) with 1 by lia. rewrite u32_small by lia. lia.
  - (* one output consumed *)
    eexists. eexists. exists seen, late. split; [exact Hrun|].
    cbn [stream gst_dec trace machine_of].
    split; [reflexivity|]. split; [exact Hsplit|]. split; [exact Hseen|].
    cbv zeta. fold c0. rewrite pulls_app, pulls_before_consume, pulls_pull, pulled_count, Hfin.
    apply Z.eqb_neq in E. rewrite E. apply Z.eqb_neq in E.
    replace (pulls t + 1 - pulls t) with 1 by lia.
    split; [reflexivity|]. split; [lia|]. split; [reflexivity|].
    split; [apply u32_range|].
    left.
    assert (Hsmall : c0 + outputs seen < 2 ^ 32).
    { destruct (Z.eq_dec c0 (2 ^ 32 - 1)) as [Emax|Emax]; [|lia].
      destruct (Z.eq_dec (outputs seen) 1) as [E1|E1]; [|lia].
      exfalso. apply E. rewrite Emax, E1. reflexivity. }
    rewrite (u32_small (c0 + outputs seen)) in * by lia.
    rewrite u32_small by lia. lia.
Qed.

Lemma race_is_absorbed_witness :
  exists m' d',
    stream_gst_data (sample_run [] [[need_data]; [new_sample]]) started_machine
      = Returns tt m' /\
    gst_dec (stream m') = Some d' /\
    samples_count d' = 1.
Proof.
  destruct (race_is_absorbed (sample_run [] [[need_data]; [new_sample]])
              started_machine sample_decoder)
    as (_ & m' & d' & seen & late & Hrun & Hd' & _).
  - reflexivity.
  - unfold wf_decoder. cbn. lia.
  - reflexivity.
  - left. reflexivity.
  - exists m', d'. split; [exact Hrun|]. split; [exact Hd'|].
    vm_compute in Hrun. injection Hrun as <-. cbn in Hd'.
    injection Hd' as <-. reflexivity.
Defined.


(** ** The flag at the return of a decode call *)




(** ** Failed pulls and failed maps *)

(** C6, as stated, fails: when the sample is pulled and its buffer cannot
    be mapped, the call reports NoOutput but the decoder still holds the
    sample at the return. *)
Lemma failed_map_keeps_the_sample :
  exists m' d',
    stream_gst_data (mkRun GST_FLOW_OK 2000 None [] [] [[new_sample]])
      started_machine = Returns tt m' /\
    NoOutput (stream m') /\
    gst_dec (stream m') = Some d' /\
    sample d' = 2000 /\
    sample d' <> NULL.
Proof.
  do 2 eexists. split; [vm_compute; reflexivity|].
  repeat split; try reflexivity. discriminate.
Qed.

(** C6, amended: a decode call that injects, to which a callback comes,
    and whose pull or map would fail, returns NoOutput with no mapped memory
    in the decoder.  If it counted no output it pulls nothing and holds no
    sample.  If it counted one it pulls: after a failed pull it holds no
    sample; after a failed map it still holds the pulled sample, which the
    release at the start of the next decode or cleanup gives back. *)
Theorem failed_pull_or_map r m d :
  gst_dec (stream m) = Some d ->
  injected (stream m) r = true ->
  after_arming r <> [] ->
  pull_ret r = NULL \/ map_ret r = None ->
  exists m' d',
    stream_gst_data r m = Returns tt m' /\
    gst_dec (stream m') = Some d' /\
    NoOutput (stream m') /\
    memory (mapinfo d') = NULL /\
    ((pulls (trace m') = pulls (trace m) /\ sample d' = NULL) \/
     (pulls (trace m') = pulls (trace m) + 1 /\
      sample d' = pull_ret r /\
      (pull_ret r = NULL \/
       (map_ret r = None /\ release_calls d' = [gst_sample_unref (pull_ret r)])))).
Proof.
  intros Hd Hinj Hsome Hfail. expose_machine m Hd. unfold after_arming in *.
  set (st := mkStream c ms fd fs o (Some d)) in *.
  destruct (stream_gst_data_injected r st o d t Hinj)
    as [(Hb & Hw & _) | (slept & rest & Hws & Hz & Hnz & Hrun)].
  { rewrite Hb, Hw in Hsome. contradiction. }
  cbv zeta in Hrun.
  destruct (samples_count (deliver_all (concat slept) (armed_decoder r d)) =? 0).
  - eexists. eexists. split; [exact Hrun|]. cbn [stream gst_dec trace machine_of].
    split; [reflexivity|]. split; [reflexivity|].
    split; [rewrite late_memory; apply armed_memory|].
    left. split; [apply pulls_before_consume|].
    rewrite late_sample. apply armed_sample.
  - eexists. eexists. split; [exact Hrun|]. cbn [stream gst_dec trace machine_of].
    split; [reflexivity|].
    set (d6 := deliver_all (concat rest)
                 (consumed_decoder (deliver_all (concat slept) (armed_decoder r d)))).
    assert (Hmem6 : memory (mapinfo d6) = NULL)
      by (subst d6; rewrite late_memory; apply armed_memory).
    unfold NoOutput, pulled_frame, pulled_decoder.
    cbn [out_frame].
    destruct (is_null (pull_ret r)) eqn:Enull.
    + apply Z.eqb_eq in Enull.
      split; [reflexivity|]. split; [exact Hmem6|].
      right. rewrite pulls_app, pulls_before_consume, pulls_pull.
      split; [reflexivity|]. split; [reflexivity|]. left. exact Enull.
    + destruct Hfail as [Hnull|Hmap].
      { rewrite Hnull in Enull. discriminate. }
      rewrite Hmap. cbn [mapinfo sample set_mapinfo set_sample memory mapinfo_zero].
      split; [reflexivity|]. split; [reflexivity|].
      right. rewrite pulls_app, pulls_before_consume, pulls_pull.
      split; [reflexivity|]. split; [reflexivity|]. right.
      split; [reflexivity|]. unfold release_calls.
      cbn [mapinfo sample memory set_mapinfo set_sample mapinfo_zero].
      rewrite Enull. reflexivity.
Qed.

Lemma failed_pull_or_map_witness :
  exists m' d',
    stream_gst_data (mkRun GST_FLOW_OK NULL None [] [] [[new_sample]])
      started_machine = Returns tt m' /\
    gst_dec (stream m') = Some d' /\
    NoOutput (stream m') /\
    memory (mapinfo d') = NULL.
Proof.
  destruct (failed_pull_or_map (mkRun GST_FLOW_OK NULL None [] [] [[new_sample]])
              started_machine sample_decoder eq_refl eq_refl)
    as (m' & d' & Hrun & Hd' & Hno & Hmem & _).
  - discriminate.
  - left. reflexivity.
  - exists m', d'. repeat split; assumption.
Defined.


(** ** One lease at a time *)








Lemma late_appsink late r d ns :
  appsink (deliver_all late (consumed_decoder (deliver_all ns (armed_decoder r d))))
  = appsink d.
Proof.
  rewrite deliver_all_appsink, consumed_decoder_eq. cbn [appsink].
  unfold armed_decoder. rewrite !deliver_all_appsink. cbn [appsink set_pipeline_wait].
  rewrite deliver_all_appsink. reflexivity.
Qed.

Lemma pull_calls_appsink r d d' : appsink d = appsink d' -> pull_calls r d = pull_calls r d'.
Proof. unfold pull_calls. intros ->. reflexivity. Qed.




(** Two successful calls in a row: the first sample (2000) and its mapping
    (3000) are given back before the second sample (2001) is pulled. *)
Example two_decodes_in_a_row :
  exists m',
    decode_all [sample_run [] [[new_sample]];
                mkRun GST_FLOW_OK 2001 (Some (mkGstMapInfo 3100 3101 64)) [] []
                      [[new_sample]]]
      started_machine = Returns tt m' /\
    out_frame (stream m') = 3101 /\
    trace m' =
      trace started_machine ++
      [spice_msg_in_ref 100; gst_buffer_new_wrapped_full 200 10 100;
       gst_app_src_push_buffer 1001 GST_FLOW_OK; g_cond_wait;
       gst_app_sink_pull_sample 1002 2000; gst_buffer_map (Some sample_mapinfo);
       gst_memory_unmap 3000; gst_memory_unref 3000; gst_sample_unref 2000;
       spice_msg_in_ref 100; gst_buffer_new_wrapped_full 200 10 100;
       gst_app_src_push_buffer 1001 GST_FLOW_OK; g_cond_wait;
       gst_app_sink_pull_sample 1002 2001;
       gst_buffer_map (Some (mkGstMapInfo 3100 3101 64))].
Proof. eexists. split; [vm_compute; reflexivity|]. split; reflexivity. Qed.



(** * Further properties *)

(** ** The completion signal *)

Lemma outputs_permutation ns ns' :
  Permutation ns ns' -> outputs ns = outputs ns'.
Proof.
  induction 1 as [| n a b _ IH | n n' a | a b c _ IH1 _ IH2]; cbn [outputs]; lia.
Qed.

Lemma outputs_count_occ ns :
  outputs ns = Z.of_nat (count_occ notification_eq_dec ns new_sample).
Proof.
  induction ns as [|n ns IH]; cbn [outputs count_occ]; [reflexivity|].
  destruct (notification_eq_dec n new_sample) as [->|Hn].
  - cbn [samples_of]. lia.
  - destruct n; [cbn [samples_of]; lia | contradiction].
Qed.

(** X1: the callbacks commute: whatever the order in which the pipeline's
    threads get the mutex, the same callbacks leave the same decoder; when
    at least one ran, it is the decoder with the flag cleared and the count
    raised, as a uint32_t, by the number of new-sample callbacks, every
    other field untouched; when none ran, the decoder is unchanged. *)
Theorem callbacks_commute ns ns' d :
  Permutation ns ns' ->
  deliver_all ns d = deliver_all ns' d /\
  deliver_all ns d =
    match ns with
    | [] => d
    | _ :: _ =>
        mkDecoder (pipeline d) (appsrc d) (appsink d) 0
                  (u32 (samples_count d
                        + Z.of_nat (count_occ notification_eq_dec ns new_sample)))
                  (sample d) (mapinfo d)
    end.
Proof.
  intros Hp. pose proof (outputs_permutation ns ns' Hp) as Ho. split.
  - destruct ns as [|n ns]; destruct ns' as [|n' ns'].
    + reflexivity.
    + apply Permutation_nil in Hp. discriminate.
    + apply Permutation_sym, Permutation_nil in Hp. discriminate.
    + rewrite !deliver_all_cons_eq, Ho. reflexivity.
  - destruct ns as [|n ns]; [reflexivity|].
    rewrite deliver_all_cons_eq, outputs_count_occ. reflexivity.
Qed.

Lemma callbacks_commute_witness :
  deliver_all [need_data; new_sample; new_sample] sample_decoder =
  deliver_all [new_sample; need_data; new_sample] sample_decoder /\
  deliver_all [need_data; new_sample; new_sample] sample_decoder =
  mkDecoder 1000 1001 1002 0 2 NULL mapinfo_zero.
Proof.
  destruct (callbacks_commute [need_data; new_sample; new_sample]
              [new_sample; need_data; new_sample] sample_decoder) as [H1 H2].
  - apply perm_swap.
  - split; [exact H1 | exact H2].
Defined.


(** ** Every outcome of a decode call *)

(** The three ways a decode call on a stream with a decoder ends: nothing
    injected; injected and never woken; injected and woken after the
    callbacks [seen], with the callbacks [late] running once the mutex is
    released, and a pull when the count read is not zero. *)
Lemma stream_gst_data_cases r st o d t :
  let t1 := t ++ release_calls d ++ push_calls st d r in
  (injected st r = false /\
   stream_gst_data r (machine_of st o d t) =
     Returns tt (machine_of st NULL (deliver_all (before_wait r) (armed_only r d)) t1))
  \/
  (injected st r = true /\ after_arming r = [] /\
   stream_gst_data r (machine_of st o d t) =
     Blocked (machine_of st NULL (armed_only r d)
                (t1 ++ repeat g_cond_wait (S (length (wakes r))))))
  \/
  (exists seen late k,
      injected st r = true /\
      after_arming r = seen ++ late /\
      seen <> [] /\
      let d4 := deliver_all seen (armed_only r d) in
      let d6 := deliver_all late (consumed_decoder d4) in
      let t2 := t1 ++ repeat g_cond_wait k in
      (samples_count d4 = 0 /\
       stream_gst_data r (machine_of st o d t) = Returns tt (machine_of st NULL d6 t2))
      \/
      (samples_count d4 <> 0 /\
       stream_gst_data r (machine_of st o d t) =
         Returns tt (machine_of st (pulled_frame r NULL) (pulled_decoder r d6)
                                (t2 ++ pull_calls r d)))).
Proof.
  intros t1. destruct (injected st r) eqn:Hinj.
  - destruct (stream_gst_data_injected r st o d t Hinj)
      as [(Hb & Hw & Hrun) | (slept & rest & Hws & Hz & Hnz & Hrun)].
    + right. left. split; [reflexivity|]. unfold after_arming. rewrite Hb, Hw.
      split; [reflexivity|]. rewrite Hrun. unfold armed_decoder. rewrite Hb.
      reflexivity.
    + right. right. exists (before_wait r ++ concat slept), (concat rest), (length slept).
      split; [reflexivity|].
      split; [unfold after_arming; rewrite Hws, concat_app, app_assoc; reflexivity|].
      split.
      { intros Hnil. apply app_eq_nil in Hnil as [Hb Hsl]. now apply Hnz. }
      cbv zeta in Hrun |- *. rewrite deliver_all_app.
      change (deliver_all (before_wait r) (armed_only r d)) with (armed_decoder r d).
      destruct (Z.eqb_spec (samples_count (deliver_all (concat slept) (armed_decoder r d))) 0)
        as [E|E].
      * left. split; [exact E | exact Hrun].
      * right. split; [exact E|]. rewrite Hrun.
        rewrite (pull_calls_appsink r _ d) by apply late_appsink. reflexivity.
  - left. split; [reflexivity|]. apply stream_gst_data_not_injected. exact Hinj.
Qed.

(** Fields of the decoder along a call. *)
Lemma armed_only_eq r d :
  armed_only r d =
  mkDecoder (pipeline d) (appsrc d) (appsink d) 1
            (samples_count (deliver_all (before_arm r) d)) NULL
            (mkGstMapInfo NULL (data (mapinfo d)) (size (mapinfo d))).
Proof.
  unfold armed_only. destruct (before_arm r) as [|n ns].
  - reflexivity.
  - rewrite !deliver_all_cons_eq. reflexivity.
Qed.

Lemma armed_only_wf r d : wf_decoder d -> wf_decoder (armed_only r d).
Proof.
  intros H. unfold wf_decoder. rewrite armed_only_eq. cbn [samples_count].
  apply deliver_all_wf. exact H.
Qed.

Lemma consumed_decoder_wf d : wf_decoder d -> wf_decoder (consumed_decoder d).
Proof.
  unfold wf_decoder. intros H. rewrite consumed_decoder_eq. cbn [samples_count].
  destruct (samples_count d =? 0); [exact H | apply u32_range].
Qed.

Lemma pulled_decoder_wf r d : wf_decoder d -> wf_decoder (pulled_decoder r d).
Proof. unfold wf_decoder. now rewrite pulled_count. Qed.

Lemma pulled_handles r d :
  pipeline (pulled_decoder r d) = pipeline d /\
  appsrc (pulled_decoder r d) = appsrc d /\
  appsink (pulled_decoder r d) = appsink d.
Proof.
  unfold pulled_decoder. destruct (is_null (pull_ret r)); [repeat split|].
  destruct (map_ret r); repeat split.
Qed.

Lemma deliver_all_handles ns d :
  pipeline (deliver_all ns d) = pipeline d /\
  appsrc (deliver_all ns d) = appsrc d /\
  appsink (deliver_all ns d) = appsink d.
Proof.
  destruct ns; [repeat split|]. rewrite deliver_all_cons_eq. repeat split.
Qed.


(** ** The resource ledger along a decode call *)

Lemma outstanding_app t cs : outstanding (t ++ cs) = fold_left account cs (outstanding t).
Proof. unfold outstanding. apply fold_left_app. Qed.

Lemma remove_one_lease_free x H l :
  is_lease_resource x = true -> lease_free H ->
  remove_one x (H ++ l) = H ++ remove_one x l.
Proof.
  intros Hx. unfold lease_free. induction H as [|h H IH]; intros Hfree.
  - reflexivity.
  - cbn [forallb] in Hfree. apply andb_true_iff in Hfree as [Hh Hfree].
    cbn [app remove_one].
    replace (resource_eqb x h) with false.
    + now rewrite IH.
    + destruct x; try discriminate Hx; destruct h; try discriminate Hh; reflexivity.
Qed.

Lemma account_silent held c :
  acquired c = [] -> released c = [] -> account held c = held.
Proof. intros Ha Hr. unfold account. rewrite Ha, Hr. cbn. apply app_nil_r. Qed.

Lemma ledger_release H d :
  lease_free H ->
  fold_left account (release_calls d) (H ++ lease_resources d) = H.
Proof.
  intros Hfree. unfold release_calls, lease_resources, if_ptr.
  destruct (is_null (memory (mapinfo d))) eqn:Em;
    destruct (is_null (sample d)) eqn:Es;
    cbn [app fold_left]; unfold account;
    cbn [released acquired fold_left app];
    rewrite ?app_nil_r;
    repeat (rewrite remove_one_lease_free by (reflexivity || exact Hfree);
            cbn [remove_one resource_eqb]; rewrite ?Z.eqb_refl);
    rewrite ?app_nil_r; reflexivity.
Qed.

Lemma ledger_push held st d r : fold_left account (push_calls st d r) held = held.
Proof.
  unfold push_calls. destruct (frame_size st =? 0); cbn [fold_left]; [reflexivity|].
  rewrite !account_silent by reflexivity. reflexivity.
Qed.

Lemma ledger_waits held k : fold_left account (repeat g_cond_wait k) held = held.
Proof.
  induction k as [|k IH]; cbn [repeat fold_left]; [reflexivity|].
  rewrite account_silent by reflexivity. exact IH.
Qed.

Lemma ledger_pull H r d d6 :
  sample d6 = NULL -> memory (mapinfo d6) = NULL ->
  fold_left account (pull_calls r d) H = H ++ lease_resources (pulled_decoder r d6).
Proof.
  intros Hs Hm. unfold pull_calls, pulled_decoder, lease_resources, if_ptr.
  destruct (is_null (pull_ret r)) eqn:Enull.
  - cbn [fold_left sample mapinfo set_sample]. rewrite Enull, Hm.
    unfold account. cbn [released acquired fold_left if_ptr]. unfold if_ptr.
    rewrite Enull. reflexivity.
  - cbn [fold_left]. unfold account at 2. cbn [released acquired fold_left].
    unfold if_ptr. rewrite Enull.
    destruct (map_ret r) as [mi|];
      cbn [sample mapinfo set_sample set_mapinfo memory mapinfo_zero];
      rewrite Enull; unfold account; cbn [released acquired fold_left]; unfold if_ptr.
    + destruct (is_null (memory mi)); rewrite <- app_assoc; reflexivity.
    + replace (is_null NULL) with true by reflexivity. rewrite !app_nil_r. reflexivity.
Qed.

(** The calls of a decode up to its pull leave what was held, less the
    lease. *)
Lemma ledger_before_pull H t st d r k :
  lease_free H ->
  outstanding t = H ++ lease_resources d ->
  outstanding ((t ++ release_calls d ++ push_calls st d r) ++ repeat g_cond_wait k) = H.
Proof.
  intros Hfree Hout.
  rewrite !outstanding_app, Hout, !fold_left_app, ledger_release by exact Hfree.
  rewrite ledger_push. apply ledger_waits.
Qed.

Lemma lease_resources_none d :
  sample d = NULL -> memory (mapinfo d) = NULL -> lease_resources d = [].
Proof. intros Hs Hm. unfold lease_resources. rewrite Hs, Hm. reflexivity. Qed.


(** ** Counting calls *)

Lemma count_calls_app p a b : count_calls p (a ++ b) = count_calls p a + count_calls p b.
Proof. unfold count_calls. rewrite filter_app, length_app. lia. Qed.

Lemma count_calls_none p l :
  forallb (fun c => negb (p c)) l = true -> count_calls p l = 0.
Proof.
  unfold count_calls. induction l as [|c l IH]; cbn [forallb filter]; intros H.
  - reflexivity.
  - apply andb_true_iff in H as [Hc Hl]. apply negb_true_iff in Hc. rewrite Hc.
    apply IH. exact Hl.
Qed.

Lemma count_calls_waits p k : p g_cond_wait = false -> count_calls p (repeat g_cond_wait k) = 0.
Proof.
  intros Hp. apply count_calls_none. induction k as [|k IH]; cbn [repeat forallb].
  - reflexivity.
  - rewrite Hp. exact IH.
Qed.

Lemma release_calls_only_release p d :
  (forall x, p (gst_memory_unmap x) = false) ->
  (forall x, p (gst_memory_unref x) = false) ->
  (forall x, p (gst_sample_unref x) = false) ->
  count_calls p (release_calls d) = 0.
Proof.
  intros H1 H2 H3. apply count_calls_none. unfold release_calls.
  destruct (is_null (memory (mapinfo d))); destruct (is_null (sample d));
    cbn [app forallb]; rewrite ?H1, ?H2, ?H3; reflexivity.
Qed.

Lemma pull_calls_only_pull p r d :
  (forall x y, p (gst_app_sink_pull_sample x y) = false) ->
  (forall x, p (gst_buffer_map x) = false) ->
  count_calls p (pull_calls r d) = 0.
Proof.
  intros H1 H2. apply count_calls_none. unfold pull_calls.
  destruct (is_null (pull_ret r)); cbn [forallb]; rewrite ?H1, ?H2; reflexivity.
Qed.

Lemma push_calls_count st d r :
  count_calls is_msg_ref (push_calls st d r) = (if frame_size st =? 0 then 0 else 1) /\
  count_calls is_buffer_wrap (push_calls st d r) = (if frame_size st =? 0 then 0 else 1) /\
  count_calls is_push (push_calls st d r) = (if frame_size st =? 0 then 0 else 1) /\
  count_calls is_teardown (push_calls st d r) = 0.
Proof. unfold push_calls. destruct (frame_size st =? 0); repeat split. Qed.

(** The calls one decode adds, counted. *)
Lemma decode_calls_count t st d r k pulled :
  pulled = [] \/ pulled = pull_calls r d ->
  let t' := ((t ++ release_calls d ++ push_calls st d r) ++ repeat g_cond_wait k)
            ++ pulled in
  let n := if frame_size st =? 0 then 0 else 1 in
  count_calls is_msg_ref t' = count_calls is_msg_ref t + n /\
  count_calls is_buffer_wrap t' = count_calls is_buffer_wrap t + n /\
  count_calls is_push t' = count_calls is_push t + n /\
  count_calls is_teardown t' = count_calls is_teardown t.
Proof.
  intros Hp. cbv zeta.
  destruct (push_calls_count st d r) as (P1 & P2 & P3 & P4).
  rewrite !count_calls_app, P1, P2, P3, P4.
  rewrite !release_calls_only_release by reflexivity.
  rewrite !count_calls_waits by reflexivity.
  destruct Hp as [-> | ->].
  - repeat split; cbn; lia.
  - rewrite !pull_calls_only_pull by reflexivity. repeat split; lia.
Qed.


(** ** One decode call, summed up *)

Lemma count_chain r d ns :
  wf_decoder d ->
  samples_count (deliver_all ns (armed_only r d)) =
  u32 (samples_count d + outputs (before_arm r ++ ns)).
Proof.
  intros Hwf. rewrite deliver_all_count by (apply armed_only_wf; exact Hwf).
  rewrite armed_only_eq. cbn [samples_count].
  rewrite deliver_all_count by exact Hwf.
  rewrite u32_add_l, outputs_app. f_equal. lia.
Qed.

Lemma armed_only_handles r d : same_handles d (armed_only r d).
Proof. rewrite armed_only_eq. repeat split. Qed.

Lemma armed_only_sample r d ns : sample (deliver_all ns (armed_only r d)) = NULL.
Proof. rewrite deliver_all_sample, armed_only_eq. reflexivity. Qed.

Lemma armed_only_memory r d ns : memory (mapinfo (deliver_all ns (armed_only r d))) = NULL.
Proof. rewrite deliver_all_mapinfo, armed_only_eq. reflexivity. Qed.

Lemma same_handles_deliver ns d d0 : same_handles d d0 -> same_handles d (deliver_all ns d0).
Proof.
  intros (H1 & H2 & H3). destruct (deliver_all_handles ns d0) as (E1 & E2 & E3).
  unfold same_handles. rewrite E1, E2, E3. auto.
Qed.

Lemma same_handles_consumed d d0 : same_handles d d0 -> same_handles d (consumed_decoder d0).
Proof. intros H. rewrite consumed_decoder_eq. exact H. Qed.

Lemma same_handles_pulled r d d0 : same_handles d d0 -> same_handles d (pulled_decoder r d0).
Proof.
  intros (H1 & H2 & H3). destruct (pulled_handles r d0) as (E1 & E2 & E3).
  unfold same_handles. rewrite E1, E2, E3. auto.
Qed.

Lemma pulls_bounds t st d r k pulled :
  pulled = [] \/ pulled = pull_calls r d ->
  pulls t <=
  pulls (((t ++ release_calls d ++ push_calls st d r) ++ repeat g_cond_wait k) ++ pulled)
  <= pulls t + 1.
Proof.
  intros [-> | ->]; rewrite pulls_app, pulls_before_consume.
  - cbn [pulls]. lia.
  - rewrite pulls_pull. lia.
Qed.

Lemma decode_step_holds r m d :
  gst_dec (stream m) = Some d ->
  wf_decoder d ->
  exists m' d',
    (stream_gst_data r m = Returns tt m' \/ stream_gst_data r m = Blocked m') /\
    decode_step r m d m' d'.
Proof.
  intros Hd Hwf. expose_machine m Hd.
  set (st := mkStream c ms fd fs o (Some d)) in *.
  pose proof (outputs_nonneg (before_arm r)) as Hba.
  destruct (stream_gst_data_cases r st o d t)
    as [(Hinj & Hrun) | [(Hinj & Hnone & Hrun) | (seen & late & k & Hinj & Hsplit & Hseen & Hrun)]].
  - (* nothing injected *)
    eexists. eexists. split; [left; exact Hrun|].
    unfold decode_step. cbn [stream trace gst_dec machine_of].
    split; [reflexivity|]. split; [repeat split|].
    split; [apply same_handles_deliver, armed_only_handles|].
    split; [apply deliver_all_wf, armed_only_wf; exact Hwf|].
    split.
    { intros H Hfree Hout.
      rewrite lease_resources_none
        by (apply armed_only_sample || apply armed_only_memory).
      rewrite app_nil_r.
      pose proof (ledger_before_pull H t st d r 0 Hfree Hout) as L.
      cbn [repeat] in L. rewrite app_nil_r in L. exact L. }
    split.
    { change (delivered _ r) with (delivered st r). unfold delivered.
      rewrite Hinj. intros Hbound.
      rewrite count_chain by exact Hwf.
      pose proof (outputs_nonneg (before_arm r ++ before_wait r)).
      unfold wf_decoder in Hwf. rewrite u32_small by lia.
      pose proof (pulls_before_consume t st d r 0) as P.
      cbn [repeat] in P. rewrite app_nil_r in P. rewrite P. lia. }
    split.
    { pose proof (pulls_bounds t st d r 0 [] (or_introl eq_refl)) as B.
      cbn [repeat] in B. rewrite !app_nil_r in B. exact B. }
    pose proof (decode_calls_count t st d r 0 [] (or_introl eq_refl)) as C.
    cbn [repeat] in C. rewrite !app_nil_r in C. exact C.
  - (* injected, never woken *)
    eexists. eexists. split; [right; exact Hrun|].
    unfold decode_step. cbn [stream trace gst_dec machine_of].
    split; [reflexivity|]. split; [repeat split|].
    split; [apply armed_only_handles|].
    split; [apply armed_only_wf; exact Hwf|].
    split.
    { intros H Hfree Hout.
      rewrite lease_resources_none
        by (apply (armed_only_sample r d []) || apply (armed_only_memory r d [])).
      rewrite app_nil_r. apply ledger_before_pull; assumption. }
    split.
    { change (delivered _ r) with (delivered st r). unfold delivered.
      rewrite Hinj, Hnone, app_nil_r. intros Hbound.
      pose proof (count_chain r d [] Hwf) as Hc. cbn [deliver_all fold_left] in Hc.
      rewrite app_nil_r in Hc. rewrite Hc.
      unfold wf_decoder in Hwf. rewrite u32_small by lia.
      rewrite pulls_before_consume. lia. }
    split.
    { pose proof (pulls_bounds t st d r (S (length (wakes r))) [] (or_introl eq_refl)) as B.
      rewrite !app_nil_r in B. exact B. }
    pose proof (decode_calls_count t st d r (S (length (wakes r))) [] (or_introl eq_refl)) as C.
    rewrite !app_nil_r in C. exact C.
  - (* injected and woken *)
    cbv zeta in Hrun.
    set (d4 := deliver_all seen (armed_only r d)) in *.
    assert (Hwf4 : wf_decoder d4) by (apply deliver_all_wf, armed_only_wf; exact Hwf).
    assert (Hs4 : sample d4 = NULL) by apply armed_only_sample.
    assert (Hm4 : memory (mapinfo d4) = NULL) by apply armed_only_memory.
    assert (Hh4 : same_handles d d4) by apply same_handles_deliver, armed_only_handles.
    assert (Hc4 : samples_count d4 = u32 (samples_count d + outputs (before_arm r ++ seen)))
      by (apply count_chain; exact Hwf).
    set (d6 := deliver_all late (consumed_decoder d4)) in *.
    assert (Hwf6 : wf_decoder d6) by (apply deliver_all_wf, consumed_decoder_wf; exact Hwf4).
    assert (Hs6 : sample d6 = NULL) by (subst d6; rewrite late_sample; exact Hs4).
    assert (Hm6 : memory (mapinfo d6) = NULL) by (subst d6; rewrite late_memory; exact Hm4).
    assert (Hh6 : same_handles d d6)
      by (apply same_handles_deliver, same_handles_consumed; exact Hh4).
    pose proof (late_count late d4 Hwf4) as Hc6. fold d6 in Hc6.
    assert (Hdel : outputs (delivered st r) =
                   outputs (before_arm r ++ seen) + outputs late).
    { unfold delivered. rewrite Hinj, Hsplit, app_assoc, outputs_app. reflexivity. }
    pose proof (outputs_nonneg (before_arm r ++ seen)) as Hos.
    pose proof (outputs_nonneg late) as Hol.
    destruct Hrun as [(Hzero & Hrun) | (Hpos & Hrun)].
    + eexists. eexists. split; [left; exact Hrun|].
      unfold decode_step. cbn [stream trace gst_dec machine_of].
      split; [reflexivity|]. split; [repeat split|].
      split; [exact Hh6|]. split; [exact Hwf6|].
      split.
      { intros H Hfree Hout. rewrite lease_resources_none by assumption.
        rewrite app_nil_r. apply ledger_before_pull; assumption. }
      split.
      { change (delivered _ r) with (delivered st r). rewrite Hdel. intros Hbound. rewrite Hc6, Hzero. cbn [Z.eqb].
        rewrite Hc4 in Hzero. unfold wf_decoder in Hwf.
        rewrite u32_small in Hzero by lia. rewrite u32_small by lia.
        rewrite pulls_before_consume. lia. }
      split.
      { pose proof (pulls_bounds t st d r k [] (or_introl eq_refl)) as B.
        rewrite !app_nil_r in B. exact B. }
      pose proof (decode_calls_count t st d r k [] (or_introl eq_refl)) as C.
      rewrite !app_nil_r in C. exact C.
    + eexists. eexists. split; [left; exact Hrun|].
      unfold decode_step. cbn [stream trace gst_dec machine_of].
      split; [reflexivity|]. split; [repeat split|].
      split; [apply same_handles_pulled; exact Hh6|].
      split; [apply pulled_decoder_wf; exact Hwf6|].
      split.
      { intros H Hfree Hout. rewrite outstanding_app.
        rewrite (ledger_before_pull H t st d r k Hfree Hout).
        apply ledger_pull; assumption. }
      split.
      { change (delivered _ r) with (delivered st r). rewrite Hdel. intros Hbound. rewrite pulled_count, Hc6.
        apply Z.eqb_neq in Hpos. rewrite Hpos. apply Z.eqb_neq in Hpos.
        rewrite Hc4 in *. unfold wf_decoder in Hwf.
        rewrite (u32_small (samples_count d + outputs (before_arm r ++ seen))) in * by lia.
        rewrite u32_small by lia.
        rewrite pulls_app, pulls_before_consume, pulls_pull. lia. }
      split; [exact (pulls_bounds t st d r k (pull_calls r d) (or_intror eq_refl))|].
      exact (decode_calls_count t st d r k (pull_calls r d) (or_intror eq_refl)).
Qed.


(** ** Sequences of decode calls, summed up *)

Lemma same_frame_injected st st' r : same_frame st st' -> injected st' r = injected st r.
Proof. intros (_ & _ & _ & H). unfold injected. now rewrite H. Qed.

Lemma same_frame_delivered_all st st' rs :
  same_frame st st' -> delivered_all st' rs = delivered_all st rs.
Proof.
  intros H. induction rs as [|r rs IH]; cbn [delivered_all]; [reflexivity|].
  rewrite IH. unfold delivered. now rewrite (same_frame_injected st st' r H).
Qed.

Lemma decode_steps_hold rs : forall m d,
  gst_dec (stream m) = Some d ->
  wf_decoder d ->
  exists m' d' done rest,
    rs = done ++ rest /\
    ((decode_all rs m = Returns tt m' /\ rest = []) \/
     (decode_all rs m = Blocked m' /\ done <> [])) /\
    decode_steps done m d m' d'.
Proof.
  induction rs as [|r rs IH]; intros m d Hd Hwf.
  - exists m, d, [], []. split; [reflexivity|]. split; [left; split; reflexivity|].
    unfold decode_steps. cbn [delivered_all outputs length Z.of_nat].
    split; [exact Hd|]. split; [repeat split|]. split; [repeat split|].
    split; [exact Hwf|]. split; [auto|]. split; [intros; lia|]. split; [lia|].
    destruct (frame_size (stream m) =? 0); repeat split; lia.
  - destruct (decode_step_holds r m d Hd Hwf)
      as (m1 & d1 & Hrun & Hd1 & Hf1 & Hh1 & Hwf1 & Hl1 & Ha1 & Hp1 & Hc1).
    destruct Hrun as [Hrun|Hrun].
    + destruct (IH m1 d1 Hd1 Hwf1)
        as (m' & d' & done & rest & Hrs & Hall & Hd' & Hf' & Hh' & Hwf' & Hl' & Ha' & Hp' & Hc').
      exists m', d', (r :: done), rest. split; [rewrite Hrs; reflexivity|].
      split.
      { cbn [decode_all]. unfold bind. rewrite Hrun.
        destruct Hall as [(Hall & Hrest) | (Hall & Hdone)].
        - left. split; assumption.
        - right. split; [exact Hall | discriminate]. }
      unfold decode_steps.
      rewrite (same_frame_delivered_all _ _ done Hf1) in Ha'.
      destruct Hf1 as (F1 & F2 & F3 & F4). destruct Hf' as (G1 & G2 & G3 & G4).
      destruct Hh1 as (A1 & A2 & A3). destruct Hh' as (B1 & B2 & B3).
      split; [exact Hd'|].
      split; [repeat split; congruence|]. split; [repeat split; congruence|].
      split; [exact Hwf'|]. split; [intros H Hfree Hout; auto|].
      pose proof (outputs_nonneg (delivered (stream m) r)) as Ho1.
      pose proof (outputs_nonneg (delivered_all (stream m) done)) as Ho2.
      split.
      { cbn [delivered_all]. rewrite outputs_app. intros Hbound.
        rewrite Ha' by lia. rewrite <- Z.add_assoc. lia. }
      split; [cbn [length]; lia|].
      cbv zeta in Hc1, Hc' |- *. rewrite F4 in Hc'. cbn [length].
      destruct (frame_size (stream m) =? 0); repeat split; lia.
    + exists m1, d1, [r], rs. split; [reflexivity|].
      split.
      { right. split; [|discriminate]. cbn [decode_all]. unfold bind.
        rewrite Hrun. reflexivity. }
      unfold decode_steps. cbn [delivered_all length]. rewrite app_nil_r.
      split; [exact Hd1|]. split; [exact Hf1|]. split; [exact Hh1|].
      split; [exact Hwf1|]. split; [exact Hl1|]. split; [exact Ha1|].
      split; [lia|]. exact Hc1.
Qed.


(** ** What a decode call waits for *)

(** X2: a decode call on a stream with a decoder never faults.  It stays in
    g_cond_wait for ever exactly when its buffer was injected and no
    callback runs once the flag is armed: callbacks that ran before the
    arming, and spurious wake-ups, do not end the wait.  In every other case
    it returns. *)
Theorem decode_waits_for_a_later_callback r m d :
  gst_dec (stream m) = Some d ->
  (forall m', stream_gst_data r m <> Segfault m') /\
  ((exists m', stream_gst_data r m = Blocked m') <->
   injected (stream m) r = true /\ after_arming r = []) /\
  ((exists m', stream_gst_data r m = Returns tt m') <->
   injected (stream m) r = false \/ after_arming r <> []).
Proof.
  intros Hd. expose_machine m Hd.
  set (st := mkStream c ms fd fs o (Some d)) in *.
  change (injected _ r) with (injected st r).
  destruct (stream_gst_data_cases r st o d t)
    as [(Hinj & Hrun) | [(Hinj & Hnone & Hrun) | (seen & late & k & Hinj & Hsplit & Hseen & Hrun)]].
  - rewrite Hrun, Hinj. split; [discriminate|]. split; split.
    + intros [m' H]. discriminate.
    + intros [H _]. discriminate.
    + intros _. left. reflexivity.
    + intros _. eexists. reflexivity.
  - rewrite Hrun, Hinj, Hnone. split; [discriminate|]. split; split.
    + intros _. split; reflexivity.
    + intros _. eexists. reflexivity.
    + intros [m' H]. discriminate.
    + intros [H|H]; [discriminate | contradiction].
  - assert (Hsome : after_arming r <> []).
    { rewrite Hsplit. intros H. apply app_eq_nil in H as [H _]. contradiction. }
    cbv zeta in Hrun. rewrite Hinj.
    destruct Hrun as [(_ & Hrun) | (_ & Hrun)]; rewrite Hrun;
      (split; [discriminate|]; split; split;
       [ intros [m' H]; discriminate
       | intros [_ H]; contradiction
       | intros _; right; exact Hsome
       | intros _; eexists; reflexivity ]).
Qed.

Lemma decode_waits_for_a_later_callback_witness :
  exists m',
    stream_gst_data (mkRun GST_FLOW_OK 2000 (Some sample_mapinfo)
                           [new_sample; need_data] [] [[]; []])
      started_machine = Blocked m'.
Proof.
  apply (decode_waits_for_a_later_callback
           (mkRun GST_FLOW_OK 2000 (Some sample_mapinfo) [new_sample; need_data] [] [[]; []])
           started_machine sample_decoder eq_refl).
  split; reflexivity.
Defined.

(** ** What decode calls keep *)

(** X3: whatever the pipeline does, a sequence of decode calls on a stream
    with a decoder never faults, and when it returns or stops in a wait the
    stream still has its decoder, with the same pipeline and endpoints, the
    same codec and current frame, a count within the range of uint32_t, and
    no call that tears the pipeline down (set_state, object unref, mutex or
    cond clear, free) has been made. *)
Theorem decode_all_keeps_the_decoder rs m d :
  gst_dec (stream m) = Some d ->
  wf_decoder d ->
  exists m' d',
    (decode_all rs m = Returns tt m' \/ decode_all rs m = Blocked m') /\
    gst_dec (stream m') = Some d' /\
    same_frame (stream m) (stream m') /\
    same_handles d d' /\
    wf_decoder d' /\
    count_calls is_teardown (trace m') = count_calls is_teardown (trace m).
Proof.
  intros Hd Hwf.
  destruct (decode_steps_hold rs m d Hd Hwf)
    as (m' & d' & done & rest & _ & Hall & Hd' & Hf & Hh & Hwf' & _ & _ & _ & Hc).
  exists m', d'. split.
  { destruct Hall as [[H _] | [H _]]; [left | right]; exact H. }
  cbv zeta in Hc. destruct Hc as (_ & _ & _ & Hc). auto.
Qed.

Lemma decode_all_keeps_the_decoder_witness :
  exists m' d',
    (decode_all [sample_run [] [[new_sample]]; sample_run [need_data] []] started_machine
       = Returns tt m' \/
     decode_all [sample_run [] [[new_sample]]; sample_run [need_data] []] started_machine
       = Blocked m') /\
    gst_dec (stream m') = Some d' /\
    same_handles sample_decoder d'.
Proof.
  destruct (decode_all_keeps_the_decoder
              [sample_run [] [[new_sample]]; sample_run [need_data] []]
              started_machine sample_decoder eq_refl)
    as (m' & d' & Hall & Hd' & _ & Hh & _).
  - unfold wf_decoder. cbn. lia.
  - exists m', d'. auto.
Defined.

(** ** Outputs announced and samples pulled *)

Lemma delivered_all_app st a b :
  delivered_all st (a ++ b) = delivered_all st a ++ delivered_all st b.
Proof.
  induction a as [|r a IH]; cbn [app delivered_all]; [reflexivity|].
  now rewrite IH, app_assoc.
Qed.

(** X4: along a sequence of decode calls, as long as the uint32_t count
    cannot overflow, every output the new-sample callback announced is
    either pulled or still counted: the count at the end plus the samples
    pulled equals the count at the start plus the outputs announced during
    the calls made.  So the caller never pulls more samples than were
    announced. *)
Theorem pulls_match_announced_outputs rs m d :
  gst_dec (stream m) = Some d ->
  wf_decoder d ->
  samples_count d + outputs (delivered_all (stream m) rs) < 2 ^ 32 ->
  exists m' d' done rest,
    rs = done ++ rest /\
    ((decode_all rs m = Returns tt m' /\ rest = []) \/
     (decode_all rs m = Blocked m' /\ done <> [])) /\
    gst_dec (stream m') = Some d' /\
    samples_count d' + (pulls (trace m') - pulls (trace m)) =
      samples_count d + outputs (delivered_all (stream m) done) /\
    0 <= pulls (trace m') - pulls (trace m)
      <= samples_count d + outputs (delivered_all (stream m) rs).
Proof.
  intros Hd Hwf Hbound.
  destruct (decode_steps_hold rs m d Hd Hwf)
    as (m' & d' & done & rest & Hrs & Hall & Hd' & _ & _ & Hwf' & _ & Ha & Hp & _).
  exists m', d', done, rest. split; [exact Hrs|]. split; [exact Hall|].
  split; [exact Hd'|].
  rewrite Hrs, delivered_all_app, outputs_app in Hbound |- *.
  pose proof (outputs_nonneg (delivered_all (stream m) done)).
  pose proof (outputs_nonneg (delivered_all (stream m) rest)).
  unfold wf_decoder in Hwf'. lia.
Qed.

Lemma pulls_match_announced_outputs_witness :
  exists m' d',
    decode_all [sample_run [] [[need_data]; [new_sample]]; sample_run [] [[need_data]]]
      started_machine = Returns tt m' /\
    gst_dec (stream m') = Some d' /\
    samples_count d' + (pulls (trace m') - pulls (trace started_machine)) = 1.
Proof.
  destruct (pulls_match_announced_outputs
              [sample_run [] [[need_data]; [new_sample]]; sample_run [] [[need_data]]]
              started_machine sample_decoder eq_refl)
    as (m' & d' & done & rest & Hrs & Hall & Hd' & Hacc & _).
  - unfold wf_decoder. cbn. lia.
  - vm_compute. reflexivity.
  - destruct Hall as [(Hall & Hrest) | (Hall & _)].
    + exists m', d'. split; [exact Hall|]. split; [exact Hd'|].
      subst rest. rewrite app_nil_r in Hrs. subst done. exact Hacc.
    + vm_compute in Hall. discriminate Hall.
Defined.

(** ** References on the message *)

(** X10: push_compressed_buffer takes one reference on the message for
    each buffer it wraps and pushes, also when the push is refused, and none
    when the frame is empty: over the decode calls made, the references
    taken, the buffers wrapped and the pushes attempted are each one per
    call for a frame that is not empty, and none otherwise. *)
Theorem one_message_reference_per_buffer rs m d :
  gst_dec (stream m) = Some d ->
  wf_decoder d ->
  exists m' done rest,
    rs = done ++ rest /\
    ((decode_all rs m = Returns tt m' /\ rest = []) \/
     (decode_all rs m = Blocked m' /\ done <> [])) /\
    let n := if frame_size (stream m) =? 0 then 0 else Z.of_nat (length done) in
    count_calls is_msg_ref (trace m') = count_calls is_msg_ref (trace m) + n /\
    count_calls is_buffer_wrap (trace m') = count_calls is_buffer_wrap (trace m) + n /\
    count_calls is_push (trace m') = count_calls is_push (trace m) + n.
Proof.
  intros Hd Hwf.
  destruct (decode_steps_hold rs m d Hd Hwf)
    as (m' & d' & done & rest & Hrs & Hall & _ & _ & _ & _ & _ & _ & _ & Hc).
  exists m', done, rest. split; [exact Hrs|]. split; [exact Hall|].
  cbv zeta in Hc |- *. destruct Hc as (C1 & C2 & C3 & _). auto.
Qed.

Lemma one_message_reference_per_buffer_witness :
  exists m',
    decode_all [mkRun 1 2000 None [] [] []; sample_run [] [[new_sample]]]
      started_machine = Returns tt m' /\
    count_calls is_msg_ref (trace m') = 2 /\
    count_calls is_push (trace m') = 2.
Proof.
  destruct (one_message_reference_per_buffer
              [mkRun 1 2000 None [] [] []; sample_run [] [[new_sample]]]
              started_machine sample_decoder eq_refl)
    as (m' & done & rest & Hrs & Hall & C1 & _ & C3).
  - unfold wf_decoder. cbn. lia.
  - destruct Hall as [(Hall & Hrest) | (Hall & _)].
    + exists m'. split; [exact Hall|].
      subst rest. rewrite app_nil_r in Hrs. subst done.
      split; [exact C1 | exact C3].
    + vm_compute in Hall. discriminate Hall.
Defined.


(** ** Construction, teardown and the whole life of a decoder *)

Lemma outstanding_construction st w t :
  parse_launch w (pipeline_desc (codec st) (getenv_SPICE_GST_AUTO w)) <> NULL ->
  outstanding t = [] ->
  outstanding (t ++ construction_calls st w) =
  handle_resources (constructed_decoder st w).
Proof.
  intros Hp Hout. rewrite outstanding_app, Hout.
  unfold construction_calls, handle_resources, constructed_decoder.
  cbn [pipeline appsrc appsink].
  set (p := parse_launch w (pipeline_desc (codec st) (getenv_SPICE_GST_AUTO w))) in *.
  assert (Ep : is_null p = false) by (apply Z.eqb_neq; exact Hp).
  cbn [fold_left]. unfold account. cbn [released acquired fold_left app].
  unfold if_ptr. rewrite Ep.
  destruct (is_null (get_src w)); destruct (is_null (get_sink w));
    cbn [app]; rewrite ?app_nil_r; reflexivity.
Qed.

Lemma stream_gst_init_succeeds w m :
  parse_launch w (pipeline_desc (codec (stream m)) (getenv_SPICE_GST_AUTO w)) <> NULL ->
  set_state_playing w <> GST_STATE_CHANGE_FAILURE ->
  stream_gst_init w m =
  Returns tt (machine_of (stream m) (out_frame (stream m))
                (constructed_decoder (stream m) w)
                (trace m ++ construction_calls (stream m) w)).
Proof.
  intros Hp Hs. unfold stream_gst_init, gst_decoder_new, construct_pipeline.
  cbn [pipeline appsrc appsink set_pipeline set_appsrc set_appsink
       set_pipeline_wait set_samples_count].
  apply Z.eqb_neq in Hp. unfold is_null. rewrite Hp.
  replace (is_failure (set_state_playing w)) with false
    by (destruct (set_state_playing w); [contradiction | reflexivity..]).
  cbn [negb]. unfold machine_of, set_gst_dec, construction_calls, constructed_decoder.
  rewrite <- !app_assoc. reflexivity.
Qed.



Lemma failed_state_change_releases_everything_witness :
  fst (gst_decoder_new stalling_world sample_stream []) = None /\
  outstanding (snd (gst_decoder_new stalling_world sample_stream [])) = [].
Proof.
  apply (failed_state_change_releases_everything stalling_world sample_stream);
    solve [discriminate | reflexivity].
Defined.

Lemma handle_resources_lease_free d : lease_free (handle_resources d).
Proof.
  unfold lease_free, handle_resources, if_ptr.
  destruct (is_null (appsrc d)); destruct (is_null (appsink d)); reflexivity.
Qed.

Lemma same_handles_resources d d' :
  same_handles d d' -> handle_resources d' = handle_resources d.
Proof. intros (H1 & H2 & H3). unfold handle_resources. now rewrite H1, H2, H3. Qed.

Lemma ledger_teardown d :
  pipeline d <> NULL ->
  fold_left account (teardown_calls d) (handle_resources d) = [].
Proof.
  intros Hp. unfold teardown_calls, handle_resources, if_ptr, is_null.
  generalize dependent (pipeline d). intros p Hp.
  generalize (appsrc d) (appsink d). intros a b.
  cbn [fold_left]. unfold account. cbn [released acquired fold_left app].
  rewrite !app_nil_r.
  destruct (Z.eqb_spec a NULL); destruct (Z.eqb_spec b NULL); subst;
    repeat (cbn [remove_one resource_eqb app]; rewrite ?Z.eqb_refl;
            try match goal with
                | |- context [?x =? ?y] => destruct (Z.eqb_spec x y); subst
                end);
    solve [reflexivity | congruence].
Qed.

Lemma stream_gst_cleanup_spec st o d t :
  pipeline d <> NULL ->
  stream_gst_cleanup (machine_of st o d t) =
  Returns tt (mkMachine (mkStream (codec st) (msg_data st) (frame_data st)
                                  (frame_size st) NULL None)
                        (t ++ release_calls d ++ teardown_calls d)).
Proof.
  intros Hp. unfold stream_gst_cleanup.
  step_with release_last_frame_spec.
  unfold bind, get_stream, update_stream, machine_of, gst_decoder_destroy,
    reset_pipeline, set_gst_dec. cbn.
  apply Z.eqb_neq in Hp. unfold is_null. rewrite Hp.
  unfold teardown_calls. rewrite <- !app_assoc. reflexivity.
Qed.

(** X12: on a stream whose decoder has a pipeline, stream_gst_cleanup
    returns; it first gives back the held lease, then stops the pipeline,
    drops the references on the endpoints and on the pipeline, clears the
    mutex and the condition variable and frees the decoder; the stream is
    left without decoder and without output frame, and nothing of what the
    decoder and its lease held remains. *)
Theorem cleanup_releases_lease_then_handle m d :
  gst_dec (stream m) = Some d ->
  pipeline d <> NULL ->
  outstanding (trace m) = handle_resources d ++ lease_resources d ->
  exists m',
    stream_gst_cleanup m = Returns tt m' /\
    gst_dec (stream m') = None /\
    out_frame (stream m') = NULL /\
    same_frame (stream m) (stream m') /\
    trace m' = trace m ++ release_calls d ++ teardown_calls d /\
    outstanding (trace m') = [].
Proof.
  intros Hd Hp Hout. expose_machine m Hd.
  rewrite stream_gst_cleanup_spec by exact Hp.
  eexists. split; [reflexivity|]. cbn [stream trace gst_dec out_frame].
  split; [reflexivity|]. split; [reflexivity|]. split; [repeat split|].
  split; [reflexivity|].
  rewrite outstanding_app, Hout, fold_left_app.
  rewrite ledger_release by apply handle_resources_lease_free.
  apply ledger_teardown. exact Hp.
Qed.

Lemma cleanup_releases_lease_then_handle_witness :
  exists m',
    stream_gst_cleanup started_machine = Returns tt m' /\
    gst_dec (stream m') = None /\
    outstanding (trace m') = [].
Proof.
  destruct (cleanup_releases_lease_then_handle started_machine sample_decoder eq_refl)
    as (m' & Hrun & Hnone & _ & _ & _ & Hout).
  - discriminate.
  - reflexivity.
  - exists m'. split; [exact Hrun|]. split; assumption.
Defined.


(** X5: a whole session.  After a successful stream_gst_init on a machine
    that held nothing, any sequence of decode calls followed by
    stream_gst_cleanup either stops for ever in the wait of one of the
    decode calls, or returns with the stream left without decoder and
    without output frame and with nothing held any more: the pulled samples,
    their mappings, the references on the pipeline and its endpoints, the
    mutex, the condition variable and the decoder's memory have all been
    given back. *)
Theorem a_session_leaves_nothing_held w rs m :
  parse_launch w (pipeline_desc (codec (stream m)) (getenv_SPICE_GST_AUTO w)) <> NULL ->
  set_state_playing w <> GST_STATE_CHANGE_FAILURE ->
  outstanding (trace m) = [] ->
  exists m',
    ((stream_gst_init w ;; decode_all rs ;; stream_gst_cleanup) m = Returns tt m' /\
     gst_dec (stream m') = None /\
     out_frame (stream m') = NULL /\
     same_frame (stream m) (stream m') /\
     outstanding (trace m') = [])
    \/
    (stream_gst_init w ;; decode_all rs ;; stream_gst_cleanup) m = Blocked m'.
Proof.
  intros Hp Hs Hout.
  rewrite (bind_returns _ _ _ _ _ (stream_gst_init_succeeds w m Hp Hs)).
  set (d0 := constructed_decoder (stream m) w).
  set (m0 := machine_of (stream m) (out_frame (stream m)) d0
               (trace m ++ construction_calls (stream m) w)).
  assert (Hwf0 : wf_decoder d0) by (unfold wf_decoder; cbn; lia).
  assert (Hout0 : outstanding (trace m0) = handle_resources d0 ++ lease_resources d0).
  { cbn [trace m0 machine_of]. rewrite app_nil_r.
    apply outstanding_construction; assumption. }
  destruct (decode_steps_hold rs m0 d0 eq_refl Hwf0)
    as (m1 & d1 & done & rest & _ & Hall & Hd1 & Hf1 & Hh1 & _ & Hl1 & _).
  specialize (Hl1 (handle_resources d0) (handle_resources_lease_free d0) Hout0).
  rewrite <- (same_handles_resources d0 d1 Hh1) in Hl1.
  assert (Hp1 : pipeline d1 <> NULL).
  { destruct Hh1 as (E & _ & _). rewrite E. exact Hp. }
  destruct Hall as [(Hall & _) | (Hall & _)].
  - rewrite (bind_returns _ _ _ _ _ Hall).
    destruct Hf1 as (B1 & B2 & B3 & B4). cbn [stream m0 machine_of codec msg_data
      frame_data frame_size] in B1, B2, B3, B4.
    clear Hall. expose_machine m1 Hd1.
    rewrite stream_gst_cleanup_spec by exact Hp1.
    eexists. left. split; [reflexivity|]. cbn [stream trace gst_dec out_frame codec
      msg_data frame_data frame_size].
    split; [reflexivity|]. split; [reflexivity|].
    split; [repeat split; assumption|].
    rewrite outstanding_app, Hl1, fold_left_app.
    rewrite ledger_release by apply handle_resources_lease_free.
    apply ledger_teardown. exact Hp1.
  - exists m1. right. unfold bind at 1. rewrite Hall. reflexivity.
Qed.

Lemma a_session_leaves_nothing_held_witness :
  exists m',
    (stream_gst_init sample_world ;;
     decode_all [sample_run [] [[new_sample]]; sample_run [] [[need_data]]] ;;
     stream_gst_cleanup) sample_machine = Returns tt m' /\
    outstanding (trace m') = [].
Proof.
  destruct (a_session_leaves_nothing_held sample_world
              [sample_run [] [[new_sample]]; sample_run [] [[need_data]]]
              sample_machine)
    as (m' & [(Hrun & _ & _ & _ & Hout) | Hblocked]).
  - discriminate.
  - discriminate.
  - reflexivity.
  - exists m'. split; assumption.
  - vm_compute in Hblocked. discriminate Hblocked.
Defined.

(** ** The generic fragments of the description *)

(** X9: for every codec value and every setting of SPICE_GST_AUTO, the
    description uses the generic decoder decodebin exactly when the codec is
    unknown or the variable is set, and the generic caps typefind=true
    exactly when the codec is unknown or the variable is set to something
    other than "decodebin". *)
Theorem generic_fragments_exactly_when c gst_auto :
  (select_gstdec_name c gst_auto = "decodebin" <->
   known_codec c = false \/ gst_auto <> None) /\
  (select_src_caps c gst_auto = "typefind=true" <->
   known_codec c = false \/ exists v, gst_auto = Some v /\ v <> "decodebin").
Proof.
  split; split.
  - intros H. destruct c; cbn [known_codec]; auto; right;
      (destruct gst_auto; [discriminate | cbn in H; discriminate H]).
  - intros [H|H].
    + destruct c; try discriminate H. reflexivity.
    + destruct gst_auto as [v|]; [|contradiction]. destruct c; reflexivity.
  - intros H. destruct c; cbn [known_codec]; auto; right;
      (destruct gst_auto as [v|]; [|cbn in H; discriminate H];
       exists v; split; [reflexivity|];
       unfold select_src_caps in H; cbn in H;
       destruct (String.eqb_spec v "decodebin"); [discriminate H | assumption]).
  - intros [H|(v & -> & Hv)].
    + destruct c; try discriminate H. reflexivity.
    + apply String.eqb_neq in Hv.
      destruct c; unfold select_src_caps; cbn; rewrite ?Hv; reflexivity.
Qed.

(** ** The one-frame delay *)

(** X11: the delay the comment in stream_gst_data speaks of.  On a decoder
    with a zero count, when the need-data callback runs between the arming
    and the wait and the output is only announced after the caller has read
    the count, the call returns NoOutput without sleeping and the count
    keeps the output.  The next call whose buffer is injected then returns a
    frame as soon as any callback, of either kind, comes once the flag is
    armed (the uint32_t count not overflowing), and the count at its return
    is the number of outputs announced during that call: zero when only
    need-data ran. *)
Theorem delayed_frame_comes_with_next_call m d r1 r2 mi :
  gst_dec (stream m) = Some d ->
  samples_count d = 0 ->
  injected (stream m) r1 = true ->
  only_need_data (before_arm r1 ++ before_wait r1) ->
  before_wait r1 <> [] ->
  concat (wakes r1) = [new_sample] ->
  injected (stream m) r2 = true ->
  after_arming r2 <> [] ->
  1 + outputs (before_arm r2 ++ after_arming r2) < 2 ^ 32 ->
  pull_ret r2 <> NULL ->
  map_ret r2 = Some mi ->
  exists m1 d1 m2 d2,
    stream_gst_data r1 m = Returns tt m1 /\
    NoOutput (stream m1) /\
    trace m1 = trace m ++ release_calls d ++ push_calls (stream m) d r1 /\
    gst_dec (stream m1) = Some d1 /\
    samples_count d1 = 1 /\
    stream_gst_data r2 m1 = Returns tt m2 /\
    out_frame (stream m2) = data mi /\
    gst_dec (stream m2) = Some d2 /\
    sample d2 = pull_ret r2 /\
    pulls (trace m2) = pulls (trace m) + 1 /\
    samples_count d2 = outputs (before_arm r2 ++ after_arming r2) /\
    (only_need_data (before_arm r2 ++ after_arming r2) -> samples_count d2 = 0).
Proof.
  intros Hd Hzero Hinj1 Honly1 Hbw Hlate Hinj2 Hsome2 Hbound Hpull Hmap.
  assert (Hwf : wf_decoder d) by (unfold wf_decoder; rewrite Hzero; lia).
  expose_machine m Hd.
  set (st := mkStream c ms fd fs o (Some d)) in *.
  (* first call *)
  apply only_need_data_outputs in Honly1.
  destruct (stream_gst_data_injected r1 st o d t Hinj1)
    as [(Hb & _) | (slept & rest & Hws & Hz & _ & Hrun1)]; [contradiction|].
  specialize (Hz Hbw). subst slept. cbn [app] in Hws. subst rest.
  cbv zeta in Hrun1. cbn [concat length repeat] in Hrun1.
  assert (Hs1 : samples_count (deliver_all [] (armed_decoder r1 d)) = 0).
  { rewrite armed_count by exact Hwf. rewrite deliver_all_count by exact Hwf.
    rewrite Hzero, app_nil_r. rewrite outputs_app in Honly1.
    pose proof (outputs_nonneg (before_arm r1)).
    pose proof (outputs_nonneg (before_wait r1)).
    replace (outputs (before_arm r1)) with 0 by lia.
    replace (outputs (before_wait r1)) with 0 by lia. reflexivity. }
  rewrite Hs1, Hlate, app_nil_r in Hrun1. cbn [Z.eqb] in Hrun1.
  set (d1 := deliver_all [new_sample] (consumed_decoder (deliver_all [] (armed_decoder r1 d)))) in *.
  assert (Hwf4 : wf_decoder (deliver_all [] (armed_decoder r1 d)))
    by (unfold wf_decoder; rewrite Hs1; lia).
  assert (Hc1 : samples_count d1 = 1).
  { subst d1. rewrite late_count by exact Hwf4. rewrite Hs1. reflexivity. }
  assert (Hwf1 : wf_decoder d1) by (unfold wf_decoder; rewrite Hc1; lia).
  (* second call *)
  destruct (stream_gst_data_cases r2 st NULL d1 (t ++ release_calls d ++ push_calls st d r1))
    as [(Hinj & _) | [(_ & Hnone & _) | (seen & late & k & _ & Hsplit & Hseen & Hrun2)]].
  { change (injected st r2 = true) in Hinj2. congruence. }
  { contradiction. }
  cbv zeta in Hrun2.
  rewrite Hsplit, app_assoc, outputs_app in Hbound.
  pose proof (outputs_nonneg (before_arm r2 ++ seen)) as Hos.
  pose proof (outputs_nonneg late) as Hol.
  assert (Hs2 : samples_count (deliver_all seen (armed_only r2 d1)) =
                1 + outputs (before_arm r2 ++ seen)).
  { rewrite count_chain by exact Hwf1. rewrite Hc1. apply u32_small. lia. }
  destruct Hrun2 as [(Hz2 & _) | (_ & Hrun2)]; [rewrite Hs2 in Hz2; lia|].
  assert (Enull : is_null (pull_ret r2) = false) by (apply Z.eqb_neq; exact Hpull).
  assert (Hfinal : samples_count
                     (deliver_all late (consumed_decoder (deliver_all seen (armed_only r2 d1))))
                   = outputs (before_arm r2 ++ seen) + outputs late).
  { rewrite late_count by (unfold wf_decoder; rewrite Hs2; lia).
    rewrite Hs2.
    replace (1 + outputs (before_arm r2 ++ seen) =? 0) with false
      by (symmetry; apply Z.eqb_neq; lia).
    rewrite u32_small by lia. lia. }
  eexists. exists d1. eexists. eexists.
  split; [exact Hrun1|]. cbn [stream trace gst_dec machine_of out_frame].
  split; [reflexivity|]. split; [reflexivity|]. split; [reflexivity|].
  split; [exact Hc1|]. split; [exact Hrun2|].
  cbn [stream trace gst_dec machine_of out_frame].
  unfold pulled_frame, pulled_decoder. rewrite Enull, Hmap.
  split; [reflexivity|]. split; [reflexivity|]. split; [reflexivity|].
  cbn [samples_count set_mapinfo set_sample].
  split.
  { rewrite pulls_app, pulls_before_consume, pulls_pull.
    pose proof (pulls_before_consume t st d r1 0) as P.
    cbn [repeat] in P. rewrite app_nil_r in P. rewrite P. reflexivity. }
  split; [rewrite Hsplit, app_assoc, outputs_app; exact Hfinal|].
  intros Honly2. apply only_need_data_outputs in Honly2.
  rewrite Hsplit, app_assoc, outputs_app in Honly2. rewrite Hfinal. exact Honly2.
Qed.

Lemma delayed_frame_comes_with_next_call_witness :
  exists m1 m2 d2,
    stream_gst_data (sample_run [need_data] [[new_sample]]) started_machine
      = Returns tt m1 /\
    NoOutput (stream m1) /\
    stream_gst_data (sample_run [] [[new_sample]]) m1 = Returns tt m2 /\
    out_frame (stream m2) = 3001 /\
    gst_dec (stream m2) = Some d2 /\
    samples_count d2 = 1.
Proof.
  destruct (delayed_frame_comes_with_next_call started_machine sample_decoder
              (sample_run [need_data] [[new_sample]])
              (sample_run [] [[new_sample]]) sample_mapinfo)
    as (m1 & d1 & m2 & d2 & H1 & Hno & _ & _ & _ & H2 & Hout & Hd2 & _ & _ & Hc & _).
  - reflexivity.
  - reflexivity.
  - reflexivity.
  - repeat constructor.
  - discriminate.
  - reflexivity.
  - reflexivity.
  - discriminate.
  - vm_compute. reflexivity.
  - discriminate.
  - reflexivity.
  - exists m1, m2, d2. split; [exact H1|]. split; [exact Hno|].
    split; [exact H2|]. split; [exact Hout|]. split; [exact Hd2|]. exact Hc.
Defined.


(** ** The frame handed to the caller *)

(** X13: whatever was held before and whatever the pipeline does, after a
    decode call on a stream with a decoder the output frame is either NULL
    or the data pointer of a buffer mapped in this very call, whose sample,
    pulled in this call, the decoder still holds: the caller never sees the
    frame of an earlier call nor a pointer without its sample. *)
Theorem out_frame_is_backed_by_the_held_sample r m d :
  gst_dec (stream m) = Some d ->
  exists m' d',
    (stream_gst_data r m = Returns tt m' \/ stream_gst_data r m = Blocked m') /\
    gst_dec (stream m') = Some d' /\
    (out_frame (stream m') = NULL \/
     (out_frame (stream m') = data (mapinfo d') /\
      map_ret r = Some (mapinfo d') /\
      sample d' = pull_ret r /\
      sample d' <> NULL /\
      pulls (trace m') = pulls (trace m) + 1)).
Proof.
  intros Hd. expose_machine m Hd.
  set (st := mkStream c ms fd fs o (Some d)) in *.
  destruct (stream_gst_data_cases r st o d t)
    as [(_ & Hrun) | [(_ & _ & Hrun) | (seen & late & k & _ & _ & _ & Hrun)]].
  - eexists. eexists. split; [left; exact Hrun|]. split; [reflexivity|]. left. reflexivity.
  - eexists. eexists. split; [right; exact Hrun|]. split; [reflexivity|]. left. reflexivity.
  - cbv zeta in Hrun. destruct Hrun as [(_ & Hrun) | (_ & Hrun)].
    + eexists. eexists. split; [left; exact Hrun|]. split; [reflexivity|]. left. reflexivity.
    + eexists. eexists. split; [left; exact Hrun|].
      cbn [stream trace gst_dec machine_of out_frame]. split; [reflexivity|].
      unfold pulled_frame, pulled_decoder.
      destruct (is_null (pull_ret r)) eqn:Enull; [left; reflexivity|].
      destruct (map_ret r) as [mi|]; [right | left; reflexivity].
      cbn [mapinfo sample set_mapinfo set_sample].
      split; [reflexivity|]. split; [reflexivity|]. split; [reflexivity|].
      split; [apply Z.eqb_neq; exact Enull|].
      rewrite pulls_app, pulls_before_consume, pulls_pull. reflexivity.
Qed.

Lemma out_frame_is_backed_by_the_held_sample_witness :
  exists m' d',
    stream_gst_data (sample_run [] [[new_sample]])
      (machine_of sample_stream 7777
         (mkDecoder 1000 1001 1002 1 0 2222 (mkGstMapInfo 3333 7777 8)) []) =
      Returns tt m' /\
    gst_dec (stream m') = Some d' /\
    out_frame (stream m') = 3001 /\
    sample d' = 2000.
Proof.
  destruct (out_frame_is_backed_by_the_held_sample (sample_run [] [[new_sample]])
              (machine_of sample_stream 7777
                 (mkDecoder 1000 1001 1002 1 0 2222 (mkGstMapInfo 3333 7777 8)) [])
              (mkDecoder 1000 1001 1002 1 0 2222 (mkGstMapInfo 3333 7777 8)) eq_refl)
    as (m' & d' & [Hrun|Hrun] & Hd' & _).
  - exists m', d'. split; [exact Hrun|]. split; [exact Hd'|].
    vm_compute in Hrun. injection Hrun as <-. cbn in Hd'. injection Hd' as <-.
    split; reflexivity.
  - vm_compute in Hrun. discriminate Hrun.
Defined.
